(** * InceptionTime for time series: the padding and block/stack construction logic

    A shallow embedding of [src/inception/inception.py].

    Python integers are unbounded, so they are [Z]; [//] is floor division
    ([Z.div]) and raises on a zero divisor.  Exceptions are an explicit
    [result] type.  Tensors of the numerical framework are symbolic: a shape
    together with the expression of framework operations that produced the
    value, so that both "which shape comes out" and "which layers were
    applied, to what" can be computed and compared.  Module constructors run
    in a small state-and-error monad whose state is the registry of layers
    built so far. *)

From Stdlib Require Import ZArith List String Bool Lia QArith Qround.
Import ListNotations.
Local Open Scope string_scope.
Local Open Scope Z_scope.

(** ** Python runtime: exceptions, integer division, list indexing *)

Module Py.

Inductive exn : Type :=
| AssertionError (expected got : Z)
| ZeroDivisionError
| IndexError
| ValueError (msg : string)
| AttributeError (name : string)
| RuntimeError (msg : string).

Inductive result (A : Type) : Type :=
| Ok (a : A)
| Raise (e : exn).
Arguments Ok {A} a.
Arguments Raise {A} e.

Definition bind {A B} (m : result A) (k : A -> result B) : result B :=
  match m with
  | Ok a => k a
  | Raise e => Raise e
  end.

(** [a // b] *)
Definition floordiv (a b : Z) : result Z :=
  if b =? 0 then Raise ZeroDivisionError else Ok (a / b).

(** [len(l)] *)
Definition len {A} (l : list A) : Z := Z.of_nat (List.length l).

(** [l[i]], negative indices counting from the end. *)
Definition index {A} (l : list A) (i : Z) : result A :=
  let j := if i <? 0 then i + len l else i in
  if j <? 0 then Raise IndexError
  else match nth_error l (Z.to_nat j) with
       | Some a => Ok a
       | None => Raise IndexError
       end.

(** [range(n)] *)
Definition range (n : Z) : list Z := map Z.of_nat (seq 0 (Z.to_nat n)).

(** [[v] * n] *)
Definition replicate {A} (v : A) (n : Z) : list A := repeat v (Z.to_nat n).

(** A value used where Python expects a [bool] but also admits a [str]
    (the annotation of [use_residuals]). *)
Inductive flag : Type :=
| PyBool (b : bool)
| PyStr (s : string).

(** [if f:] *)
Definition truthy (f : flag) : bool :=
  match f with
  | PyBool b => b
  | PyStr s => negb (String.eqb s EmptyString)
  end.

(** [f == 'default'] *)
Definition eq_str (f : flag) (s : string) : bool :=
  match f with
  | PyBool _ => false
  | PyStr s' => String.eqb s' s
  end.

End Py.
Import Py.

Declare Scope py_scope.
Delimit Scope py_scope with py.
Notation "x <- m ;; k" := (Py.bind m (fun x => k))
  (at level 61, m at next level, right associativity) : py_scope.
Local Open Scope py_scope.

(** ** The numerical framework, as far as the program uses it *)

Module Torch.

(** The value of a tensor: the operations that produced it. *)
#[warnings="-register-all"] Inductive expr : Type :=
| Input (name : string)
| Param (layer : nat) (field : string)
| Pad (e : expr) (left right : Z)
| Conv1d (input weight : expr) (bias : option expr)
         (stride padding dilation groups : Z)
| BatchNorm (layer : nat) (e : expr)
| Relu (e : expr)
| Add (a b : expr)
| Mean (e : expr) (dim : Z)
| Affine (layer : nat) (e : expr).

Record Tensor : Type := mkTensor { shape : list Z; value : expr }.

(** [t.size(dim)] *)
Definition size (t : Tensor) (dim : Z) : result Z := Py.index (shape t) dim.

(** [f] applied to the last entry of a non-empty shape. *)
Fixpoint on_last (f : Z -> Z) (s : list Z) : list Z :=
  match s with
  | [] => []
  | [l] => [f l]
  | d :: s' => d :: on_last f s'
  end.

(** [F.pad(input, [left, right])]: constant padding of the last dimension,
    [left] entries before the sequence and [right] entries after it. *)
Definition F_pad (input : Tensor) (left right : Z) : result Tensor :=
  match shape input with
  | [] => Raise (RuntimeError "padding a tensor without dimensions")
  | s =>
      if List.last s 0 + left + right <? 0
      then Raise (RuntimeError "padding makes the dimension negative")
      else Ok (mkTensor (on_last (fun l => l + left + right) s)
                        (Pad (value input) left right))
  end.

(** The argument checks of a convolution over a sequence of length [l] with
    [c_in] channels in a batch of [n], against a weight
    [[c_out; c_w; k]], and the output length
    [(l + 2 * padding - dilation * (k - 1) - 1) // stride + 1].  The checks
    and their order are the framework's: the shape checks come first, then
    the backend refuses an input with no entries (other than a zero batch or
    zero channels) and a kernel of size 0.  Integers are exact here; the
    framework computes in 64 bits, so the rule holds while every quantity
    stays below [2 ^ 63]. *)
Definition conv1d_length (n c_in l c_out c_w k : Z) (bias_matches : bool)
    (stride padding dilation groups : Z) : result Z :=
  if padding <? 0 then Raise (RuntimeError "negative padding is not supported")
  else if stride <=? 0 then Raise (RuntimeError "non-positive stride is not supported")
  else if dilation <=? 0 then Raise (RuntimeError "dilation should be greater than zero")
  else if groups <=? 0 then Raise (RuntimeError "non-positive groups is not supported")
  else if c_out <? groups
  then Raise (RuntimeError "expected weight to be at least groups at dimension 0")
  else if negb (c_out mod groups =? 0)
  then Raise (RuntimeError "out channels not divisible by groups")
  else if negb (c_in =? c_w * groups)
  then Raise (RuntimeError "input channels do not match the weight")
  else if negb bias_matches
  then Raise (RuntimeError "bias does not match the weight")
  else if l + 2 * padding <? dilation * (k - 1) + 1
  then Raise (RuntimeError "Kernel size can't be greater than actual input size")
  else if (l =? 0) && negb (n =? 0) && negb (c_in =? 0)
  then Raise (RuntimeError "Only zero batch or zero channel inputs are supported")
  else if k <=? 0
  then Raise (RuntimeError "kernel size should be greater than zero")
  else Ok ((l + 2 * padding - dilation * (k - 1) - 1) / stride + 1).

(** [F.conv1d(input, weight, bias, stride, padding, dilation, groups)] on a
    batched input [[N; C_in; L]] or an unbatched input [[C_in; L]] (treated
    as a batch of one) and a weight [[C_out; C_in / groups; K]]: [padding]
    zeros are added on both sides of the sequence, and the output is
    [[N; C_out; L_out]], respectively [[C_out; L_out]]; an input without
    channels gives an output without channels. *)
Definition F_conv1d (input weight : Tensor) (bias : option Tensor)
    (stride padding dilation groups : Z) : result Tensor :=
  match shape weight with
  | [c_out; c_w; k] =>
      let bias_matches :=
        match bias with
        | Some b => match shape b with [c] => c =? c_out | _ => false end
        | None => true
        end in
      let out := Conv1d (value input) (value weight) (option_map value bias)
                        stride padding dilation groups in
      match shape input with
      | [n; c_in; l] =>
          l_out <- conv1d_length n c_in l c_out c_w k bias_matches
                     stride padding dilation groups ;;
          Ok (mkTensor [n; if c_in =? 0 then 0 else c_out; l_out] out)
      | [c_in; l] =>
          l_out <- conv1d_length 1 c_in l c_out c_w k bias_matches
                     stride padding dilation groups ;;
          Ok (mkTensor [if c_in =? 0 then 0 else c_out; l_out] out)
      | _ => Raise (RuntimeError "Expected 2D (unbatched) or 3D (batched) input to conv1d")
      end
  | _ => Raise (RuntimeError "conv1d expects a 3D weight")
  end.

(** Broadcasting of two shapes, read from the last dimension. *)
Fixpoint broadcast_rev (a b : list Z) : option (list Z) :=
  match a, b with
  | [], _ => Some b
  | _, [] => Some a
  | x :: a', y :: b' =>
      match broadcast_rev a' b' with
      | None => None
      | Some r =>
          if x =? y then Some (x :: r)
          else if x =? 1 then Some (y :: r)
          else if y =? 1 then Some (x :: r)
          else None
      end
  end.

(** [a + b] *)
Definition add (a b : Tensor) : result Tensor :=
  match broadcast_rev (rev (shape a)) (rev (shape b)) with
  | Some r => Ok (mkTensor (rev r) (Add (value a) (value b)))
  | None => Raise (RuntimeError "the sizes of the tensors must match")
  end.

(** [t.mean(dim=-1)] *)
Definition mean_last (t : Tensor) : result Tensor :=
  match shape t with
  | [] => Raise IndexError
  | s => Ok (mkTensor (removelast s) (Mean (value t) (-1)))
  end.

(** The registry of layers built so far, in construction order. *)
Inductive layer : Type :=
| LConv1d (in_channels out_channels kernel_size stride : Z) (bias : bool)
| LBatchNorm1d (num_features : Z)
| LReLU
| LLinear (in_features out_features : Z).

Definition registry : Type := list layer.

(** Construction: may raise, and registers every layer it builds. *)
Definition Build (A : Type) : Type := registry -> result A * registry.

Definition ret {A} (a : A) : Build A := fun r => (Ok a, r).

Definition bindB {A B} (m : Build A) (k : A -> Build B) : Build B :=
  fun r => match m r with
           | (Ok a, r') => k a r'
           | (Raise e, r') => (Raise e, r')
           end.

Definition lift {A} (m : result A) : Build A := fun r => (m, r).

(** Registers a layer and returns its position in the registry. *)
Definition register (l : layer) : Build nat :=
  fun r => (Ok (List.length r), (r ++ [l])%list).

End Torch.
Import Torch.

Declare Scope build_scope.
Delimit Scope build_scope with build.
Notation "x <- m ;; k" := (Torch.bindB m (fun x => k))
  (at level 61, m at next level, right associativity) : build_scope.

(** [[f(x) for x in l]] with construction effects, left to right. *)
Fixpoint for_each {A B} (f : A -> Build B) (l : list A) : Build (list B) :=
  match l with
  | [] => ret []
  | x :: l' => (y <- f x ;; ys <- for_each f l' ;; ret (y :: ys))%build
  end.

(** [[f(x) for x in l]] without construction effects. *)
Fixpoint comprehension {A B} (f : A -> result B) (l : list A) : result (list B) :=
  match l with
  | [] => Ok []
  | x :: l' => y <- f x ;; ys <- comprehension f l' ;; Ok (y :: ys)
  end.

(** ** [conv1d_same_padding] *)

(** The local [padding_length] of [conv1d_same_padding]. *)
Definition padding_length (input weight : Tensor) (stride dilation : Z) : result Z :=
  input_length <- size input 1 ;;
  filter_length <- size weight 1 ;;
  let effective_filter_size_length := (filter_length - 1) * dilation + 1 in
  out_length <- floordiv (input_length + stride - 1) stride ;;
  Ok (Z.max 0 ((out_length - 1) * stride + effective_filter_size_length - input_length)).

(** [stride] and [dilation] are the single entries of the 1-tuples the
    convolution layer holds. *)
Definition conv1d_same_padding (input weight : Tensor) (bias : option Tensor)
    (stride dilation groups : Z) : result Tensor :=
  padding_length <- padding_length input weight stride dilation ;;
  let length_odd := negb (padding_length mod 2 =? 0) in
  input <- (if length_odd then F_pad input 0 (Z.b2z length_odd) else Ok input) ;;
  F_conv1d input weight bias stride (padding_length / 2) dilation groups.

(** ** The framework's layers *)

(** [nn.Conv1d] with [forward] overridden; [padding] of the initializer is
    unused.  The weight has shape [[out_channels; in_channels // groups;
    kernel_size]]; allocating it fails on a negative size, and then nothing
    is registered. *)
Module Conv1dSamePadding.

Record t : Type := mk {
  weight : Tensor;
  bias : option Tensor;
  stride : Z;
  dilation : Z;
  groups : Z
}.

Definition __init__ (in_channels out_channels kernel_size stride : Z)
    (bias : bool) : Build t :=
  let dilation := 1 in
  let groups := 1 in
  if (in_channels <? 0) || (out_channels <? 0) || (kernel_size <? 0)
  then lift (Raise (RuntimeError "Trying to create tensor with negative dimension"))
  else
  (id <- register (LConv1d in_channels out_channels kernel_size stride bias) ;;
   ret {| weight := mkTensor [out_channels; in_channels / groups; kernel_size]
                             (Param id "weight");
          bias := if bias then Some (mkTensor [out_channels] (Param id "bias"))
                  else None;
          stride := stride;
          dilation := dilation;
          groups := groups |})%build.

Definition forward (self : t) (input : Tensor) : result Tensor :=
  conv1d_same_padding input (weight self) (bias self) (stride self)
                      (dilation self) (groups self).

End Conv1dSamePadding.

Module BatchNorm1d.

(** [training] is the mode flag of the module: a new module is in training
    mode, and nothing in the program changes it. *)
Record t : Type := mk { num_features : Z; training : bool; id : nat }.

Definition __init__ (num_features : Z) : Build t :=
  if num_features <? 0
  then lift (Raise (RuntimeError "Trying to create tensor with negative dimension"))
  else
  (id <- register (LBatchNorm1d num_features) ;;
   ret {| num_features := num_features; training := true; id := id |})%build.

(** The checks on an input with [per_channel] values in each of its [c]
    channels: in training mode a single value per channel is refused. *)
Definition normalise (self : t) (per_channel c : Z) (input : Tensor)
    : result Tensor :=
  if training self && (per_channel =? 1)
  then Raise (ValueError "Expected more than 1 value per channel when training")
  else if c =? num_features self
  then Ok (mkTensor (shape input) (BatchNorm (id self) (value input)))
  else Raise (RuntimeError "running_mean should contain as many elements as channels").

(** Normalises over the channel dimension of a 2D input [[N; C]] or a 3D
    input [[N; C; L]]. *)
Definition forward (self : t) (input : Tensor) : result Tensor :=
  match shape input with
  | [n; c] => normalise self n c input
  | [n; c; l] => normalise self (n * l) c input
  | _ => Raise (ValueError "expected 2D or 3D input")
  end.

End BatchNorm1d.

Module ReLU.

Inductive t : Type := mk.

Definition __init__ : Build t :=
  (_ <- register LReLU ;; ret mk)%build.

Definition forward (self : t) (input : Tensor) : result Tensor :=
  Ok (mkTensor (shape input) (Relu (value input))).

End ReLU.

Module Linear.

Record t : Type := mk { in_features : Z; out_features : Z; id : nat }.

Definition __init__ (in_features out_features : Z) : Build t :=
  if (in_features <? 0) || (out_features <? 0)
  then lift (Raise (RuntimeError "Trying to create tensor with negative dimension"))
  else
  (id <- register (LLinear in_features out_features) ;;
   ret {| in_features := in_features; out_features := out_features; id := id |})%build.

(** An affine map of the last dimension. *)
Definition forward (self : t) (input : Tensor) : result Tensor :=
  match shape input with
  | [] => Raise (RuntimeError "linear expects at least one dimension")
  | s =>
      if List.last s 0 =? in_features self
      then Ok (mkTensor (on_last (fun _ => out_features self) s)
                        (Affine (id self) (value input)))
      else Raise (RuntimeError "mat1 and mat2 shapes cannot be multiplied")
  end.

End Linear.

(** [nn.Sequential]: the modules applied in order, each to the output of
    the one before. *)
Module Sequential.

Inductive module : Type :=
| Conv (c : Conv1dSamePadding.t)
| Norm (b : BatchNorm1d.t)
| Act (r : ReLU.t).

Definition call (m : module) (x : Tensor) : result Tensor :=
  match m with
  | Conv c => Conv1dSamePadding.forward c x
  | Norm b => BatchNorm1d.forward b x
  | Act r => ReLU.forward r x
  end.

Fixpoint forward_with {M} (call : M -> Tensor -> result Tensor)
    (self : list M) (x : Tensor) : result Tensor :=
  match self with
  | [] => Ok x
  | m :: rest => y <- call m x ;; forward_with call rest y
  end.

Definition forward : list module -> Tensor -> result Tensor := forward_with call.

End Sequential.

(** ** [InceptionBlock] *)

Module InceptionBlock.

(** [bottleneck] and [residual] are attributes that exist only when
    [__init__] assigned them. *)
Record t : Type := mk {
  use_bottleneck : bool;
  bottleneck : option Conv1dSamePadding.t;
  conv_layers : list Sequential.module;
  batchnorm : BatchNorm1d.t;
  relu : ReLU.t;
  use_residual : flag;
  residual : option (list Sequential.module)
}.

(** Defaults of the signature: [stride = 1], [bottleneck_channels = 32],
    [kernel_size = 41]. *)
Definition __init__ (in_channels out_channels : Z) (residual : flag)
    (stride bottleneck_channels kernel_size : Z) : Build t :=
  (let use_bottleneck := bottleneck_channels >? 0 in
   bottleneck <- (if use_bottleneck
                  then b <- Conv1dSamePadding.__init__ in_channels bottleneck_channels
                                                       1 1 false ;;
                       ret (Some b)
                  else ret None) ;;
   kernel_size_s <- lift (comprehension (fun i => floordiv kernel_size (2 ^ i))
                                        (range 3)) ;;
   let channels := ([bottleneck_channels] ++ replicate out_channels 3)%list in
   conv_layers <- for_each
                    (fun i =>
                       c_in <- lift (index channels i) ;;
                       c_out <- lift (index channels (i + 1)) ;;
                       k <- lift (index kernel_size_s i) ;;
                       c <- Conv1dSamePadding.__init__ c_in c_out k stride false ;;
                       ret (Sequential.Conv c))
                    (range (len kernel_size_s)) ;;
   num_features <- lift (index channels (-1)) ;;
   batchnorm <- BatchNorm1d.__init__ num_features ;;
   relu <- ReLU.__init__ ;;
   residual_branch <- (if truthy residual
                       then c <- Conv1dSamePadding.__init__ in_channels out_channels
                                                            1 stride false ;;
                            b <- BatchNorm1d.__init__ out_channels ;;
                            r <- ReLU.__init__ ;;
                            ret (Some [Sequential.Conv c; Sequential.Norm b;
                                       Sequential.Act r])
                       else ret None) ;;
   ret {| use_bottleneck := use_bottleneck;
          bottleneck := bottleneck;
          conv_layers := conv_layers;
          batchnorm := batchnorm;
          relu := relu;
          use_residual := residual;
          residual := residual_branch |})%build.

Definition forward (self : t) (x : Tensor) : result Tensor :=
  let org_x := x in
  x <- (if use_bottleneck self
        then match bottleneck self with
             | Some b => Conv1dSamePadding.forward b x
             | None => Raise (AttributeError "bottleneck")
             end
        else Ok x) ;;
  x <- Sequential.forward (conv_layers self) x ;;
  if truthy (use_residual self)
  then match residual self with
       | Some branch => r <- Sequential.forward branch org_x ;; add x r
       | None => Raise (AttributeError "residual")
       end
  else Ok x.

End InceptionBlock.

(** ** [InceptionModel] *)

(** A hyperparameter given either once for all blocks or per block. *)
Inductive hyper (A : Type) : Type :=
| Scalar (v : A)
| PerBlock (l : list A).
Arguments Scalar {A} v.
Arguments PerBlock {A} l.

Module InceptionModel.

Record t : Type := mk {
  blocks : list InceptionBlock.t;
  linear : Linear.t
}.

Definition _expand_to_blocks {A} (value : hyper A) (num_blocks : Z)
    : result (list A) :=
  match value with
  | PerBlock l =>
      if len l =? num_blocks then Ok l
      else Raise (AssertionError num_blocks (len l))
  | Scalar v => Ok (replicate v num_blocks)
  end.

(** [use_residuals == 'default'] *)
Definition is_default (use_residuals : hyper flag) : bool :=
  match use_residuals with
  | Scalar f => eq_str f "default"
  | PerBlock _ => false
  end.

(** The four expansions at the head of [__init__]: the channel chain and
    the per-block bottleneck widths, kernel sizes and residual flags. *)
Definition expand_all (num_blocks in_channels : Z)
    (out_channels bottleneck_channels kernel_sizes : hyper Z)
    (use_residuals : hyper flag)
    : result (list Z * list Z * list Z * list flag) :=
  out_channels <- _expand_to_blocks out_channels num_blocks ;;
  let channels := ([in_channels] ++ out_channels)%list in
  bottleneck_channels <- _expand_to_blocks bottleneck_channels num_blocks ;;
  kernel_sizes <- _expand_to_blocks kernel_sizes num_blocks ;;
  let use_residuals :=
    if is_default use_residuals
    then PerBlock (map (fun i => if i mod 3 =? 2 then PyBool true else PyBool false)
                       (range num_blocks))
    else use_residuals in
  use_residuals <- _expand_to_blocks use_residuals num_blocks ;;
  Ok (channels, bottleneck_channels, kernel_sizes, use_residuals).

(** Defaults of the signature: [use_residuals = 'default'],
    [num_pred_classes = 1]. *)
Definition __init__ (num_blocks in_channels : Z)
    (out_channels bottleneck_channels kernel_sizes : hyper Z)
    (use_residuals : hyper flag) (num_pred_classes : Z) : Build t :=
  (cfg <- lift (expand_all num_blocks in_channels out_channels bottleneck_channels
                           kernel_sizes use_residuals) ;;
   let '(channels, bottleneck_channels, kernel_sizes, use_residuals) := cfg in
   blocks <- for_each
               (fun i =>
                  c_in <- lift (index channels i) ;;
                  c_out <- lift (index channels (i + 1)) ;;
                  res <- lift (index use_residuals i) ;;
                  b <- lift (index bottleneck_channels i) ;;
                  k <- lift (index kernel_sizes i) ;;
                  InceptionBlock.__init__ c_in c_out res 1 b k)
               (range num_blocks) ;;
   in_features <- lift (index channels (-1)) ;;
   linear <- Linear.__init__ in_features num_pred_classes ;;
   ret {| blocks := blocks; linear := linear |})%build.

Definition forward (self : t) (x : Tensor) : result Tensor :=
  x <- Sequential.forward_with InceptionBlock.forward (blocks self) x ;;
  x <- mean_last x ;;
  Linear.forward (linear self) x.

End InceptionModel.

(** ** Reference notions used by the statements *)

(** [ceil(a / b)] on the rationals. *)
Definition ceil_ratio (a b : Z) : Z := Qceiling (inject_Z a / inject_Z b).

(** Whether an expression applies batch normalisation or the rectifier
    anywhere. *)
Fixpoint applies_norm_or_relu (e : expr) : bool :=
  match e with
  | Input _ | Param _ _ => false
  | Pad e _ _ => applies_norm_or_relu e
  | Conv1d i w b _ _ _ _ =>
      applies_norm_or_relu i || applies_norm_or_relu w
      || match b with Some b => applies_norm_or_relu b | None => false end
  | BatchNorm _ _ | Relu _ => true
  | Add a b => applies_norm_or_relu a || applies_norm_or_relu b
  | Mean e _ | Affine _ e => applies_norm_or_relu e
  end.

(** Running a construction from an empty registry. *)
Definition build {A} (m : Build A) : result A * registry := m [].

(** Building a module from an empty registry and then using it. *)
Definition with_module {A B} (m : Build A) (k : A -> result B) : result B :=
  a <- fst (build m) ;; k a.

(** A hyperparameter that, when given per block, has one entry per block. *)
Definition well_sized {A} (h : hyper A) (num_blocks : Z) : Prop :=
  match h with
  | Scalar _ => True
  | PerBlock l => len l = num_blocks
  end.

(** Lines 89-91 of [InceptionBlock.forward]: the path through the optional
    bottleneck and the three convolutions. *)
Definition main_path (self : InceptionBlock.t) (x : Tensor) : result Tensor :=
  b <- (if InceptionBlock.use_bottleneck self
        then match InceptionBlock.bottleneck self with
             | Some b => Conv1dSamePadding.forward b x
             | None => Raise (AttributeError "bottleneck")
             end
        else Ok x) ;;
  Sequential.forward (InceptionBlock.conv_layers self) b.

(** [self.residual(x)] *)
Definition residual_path (self : InceptionBlock.t) (x : Tensor) : result Tensor :=
  match InceptionBlock.residual self with
  | Some branch => Sequential.forward branch x
  | None => Raise (AttributeError "residual")
  end.

(** An input tensor of the given shape. *)
Definition input_of (s : list Z) : Tensor := mkTensor s (Input "x").

(** A bias-free convolution layer from [c_in] to [c_out] channels with
    kernel size [k] and stride [s], as [Conv1dSamePadding.__init__] makes
    them: the weight is a registered parameter of shape [[c_out; c_in; k]]. *)
Definition is_conv (c : Conv1dSamePadding.t) (c_in c_out k s : Z) : Prop :=
  shape (Conv1dSamePadding.weight c) = [c_out; c_in; k] /\
  (exists id, value (Conv1dSamePadding.weight c) = Param id "weight") /\
  Conv1dSamePadding.bias c = None /\
  Conv1dSamePadding.stride c = s /\
  Conv1dSamePadding.dilation c = 1 /\
  Conv1dSamePadding.groups c = 1.

(** [InceptionBlock(in_channels=2, out_channels=3, residual=True,
    bottleneck_channels=1, kernel_size=4)], built from an empty registry. *)
Definition residual_block : InceptionBlock.t :=
  ltac:(let r := eval vm_compute in
              (fst (build (InceptionBlock.__init__ 2 3 (PyBool true) 1 1 4))) in
        match r with Ok ?b => exact b end).

(** Block [i] of a stack with the given channel chain and per-block
    settings: what the comprehension of [InceptionModel.__init__] builds at
    index [i], from some registry. *)
Definition block_of_config (channels bottlenecks kernels : list Z)
    (flags : list flag) (i : Z) (blk : InceptionBlock.t) : Prop :=
  exists c_in c_out res b k built built',
    index channels i = Ok c_in /\
    index channels (i + 1) = Ok c_out /\
    index flags i = Ok res /\
    index bottlenecks i = Ok b /\
    index kernels i = Ok k /\
    InceptionBlock.__init__ c_in c_out res 1 b k built = (Ok blk, built').

(** A batched tensor with batch size [n]. *)
Definition batched (n : Z) (t : Tensor) : Prop :=
  exists c l, shape t = [n; c; l].

(** [InceptionBlock(in_channels=2, out_channels=8, residual=True,
    bottleneck_channels=4, kernel_size=9)], built from an empty registry. *)
Definition unbalanced_residual_block : InceptionBlock.t :=
  ltac:(let r := eval vm_compute in
              (fst (build (InceptionBlock.__init__ 2 8 (PyBool true) 1 4 9))) in
        match r with Ok ?b => exact b end).

(** [InceptionBlock(in_channels=2, out_channels=8, residual=False,
    bottleneck_channels=0, kernel_size=9)], built from an empty registry. *)
Definition bottleneck_free_block : InceptionBlock.t :=
  ltac:(let r := eval vm_compute in
              (fst (build (InceptionBlock.__init__ 2 8 (PyBool false) 1 0 9))) in
        match r with Ok ?b => exact b end).

(** The output of the main path of [residual_block] on an input of shape
    [[5; 2; 50]]. *)
Definition residual_block_main_output : Tensor :=
  ltac:(let r := eval vm_compute in
              (main_path residual_block (input_of [5; 2; 50])) in
        match r with Ok ?t => exact t end).

(** The stack [InceptionModel(num_blocks=3, in_channels=2, out_channels=8,
    bottleneck_channels=4, kernel_sizes=9, use_residuals=False,
    num_pred_classes=3)], built from an empty registry. *)
Definition example_stack : InceptionModel.t :=
  ltac:(let r := eval vm_compute in
              (fst (build (InceptionModel.__init__ 3 2 (Scalar 8) (Scalar 4)
                             (Scalar 9) (Scalar (PyBool false)) 3))) in
        match r with Ok ?m => exact m end).

(** The logits of [example_stack] on an input of shape [[5; 2; 50]]. *)
Definition example_logits : Tensor :=
  ltac:(let r := eval vm_compute in
              (InceptionModel.forward example_stack (input_of [5; 2; 50])) in
        match r with Ok ?t => exact t end).



(** At unit stride and dilation the padding is [c - 1] for an input with [c]
    channels.  An empty sequence of a non-empty batch whose padding is even
    reaches [F.conv1d] as it is; with an odd padding it is first padded to
    length 1. *)
Definition empty_unpadded (n c l : Z) : bool :=
  (l =? 0) && negb (n =? 0) && ((c - 1) mod 2 =? 0).

(** * Properties *)

(** ** Python lists *)

Lemma len_replicate {A} (v : A) (n : Z) : 0 <= n -> len (replicate v n) = n.
Proof.
  intros Hn. unfold len, replicate. rewrite repeat_length. lia.
Qed.

Lemma len_range (n : Z) : 0 <= n -> len (range n) = n.
Proof.
  intros Hn. unfold len, range. rewrite length_map, length_seq. lia.
Qed.

Lemma index_map_range {A} (f : Z -> A) (n i : Z) :
  0 <= i < n -> index (map f (range n)) i = Ok (f i).
Proof.
  intros [Hlo Hhi]. unfold index, range.
  destruct (i <? 0) eqn:Hneg; [lia|]. rewrite Hneg.
  rewrite !nth_error_map, nth_error_seq.
  destruct (Nat.ltb_spec (Z.to_nat i) (Z.to_nat n)) as [_|Hge]; [|lia].
  simpl. now rewrite Z2Nat.id.
Qed.

(** ** [_expand_to_blocks] *)

Lemma expand_cases {A} (h : hyper A) (n : Z) :
  (well_sized h n /\ exists l, InceptionModel._expand_to_blocks h n = Ok l) \/
  (~ well_sized h n /\
   exists got, got <> n /\
     InceptionModel._expand_to_blocks h n = Raise (AssertionError n got)).
Proof.
  destruct h as [v|l]; simpl.
  - left. eauto.
  - destruct (Z.eqb_spec (len l) n) as [E|E].
    + left. eauto.
    + right. eauto.
Qed.

(** C9. A scalar hyperparameter expands to a list with one entry per block,
    every entry being the scalar. *)
Theorem expand_scalar_broadcasts :
  forall (A : Type) (v : A) (num_blocks : Z),
    0 <= num_blocks ->
    exists l,
      InceptionModel._expand_to_blocks (Scalar v) num_blocks = Ok l /\
      len l = num_blocks /\
      (forall x, In x l -> x = v) /\
      (forall i, 0 <= i < num_blocks -> index l i = Ok v).
Proof.
  intros A v n Hn. exists (replicate v n). repeat split.
  - now apply len_replicate.
  - intros x Hx. unfold replicate in Hx. now apply repeat_spec in Hx.
  - intros i [Hlo Hhi]. unfold index, replicate.
    destruct (i <? 0) eqn:Hneg; [lia|]. rewrite Hneg.
    rewrite nth_error_repeat by lia. reflexivity.
Qed.

Lemma expand_scalar_broadcasts_witness :
  exists l,
    InceptionModel._expand_to_blocks (Scalar 8) 3 = Ok l /\
    len l = 3 /\
    (forall x, In x l -> x = 8) /\
    (forall i, 0 <= i < 3 -> index l i = Ok 8).
Proof.
  apply (expand_scalar_broadcasts Z 8 3). lia.
Defined.

(** C8. With [use_residuals = 'default'] the resolved flags make block [i]
    residual exactly when [i % 3 == 2]; for six blocks they are
    [False, False, True, False, False, True]. *)
Theorem default_residual_policy :
  forall (num_blocks in_channels : Z)
         (out_channels bottleneck_channels kernel_sizes : hyper Z),
    0 <= num_blocks ->
    well_sized out_channels num_blocks ->
    well_sized bottleneck_channels num_blocks ->
    well_sized kernel_sizes num_blocks ->
    exists channels bottlenecks kernels flags,
      InceptionModel.expand_all num_blocks in_channels out_channels
        bottleneck_channels kernel_sizes (Scalar (PyStr "default"))
      = Ok (channels, bottlenecks, kernels, flags) /\
      len flags = num_blocks /\
      (forall i, 0 <= i < num_blocks ->
         index flags i = Ok (PyBool (i mod 3 =? 2))) /\
      (num_blocks = 6 ->
         flags = [PyBool false; PyBool false; PyBool true;
                  PyBool false; PyBool false; PyBool true]).
Proof.
  intros n ic oc bc ks Hn Hoc Hbc Hks.
  unfold InceptionModel.expand_all.
  destruct (expand_cases oc n) as [[_ [l1 E1]]|[Hbad _]]; [|contradiction].
  destruct (expand_cases bc n) as [[_ [l2 E2]]|[Hbad _]]; [|contradiction].
  destruct (expand_cases ks n) as [[_ [l3 E3]]|[Hbad _]]; [|contradiction].
  rewrite E1, E2, E3. cbn [Py.bind InceptionModel.is_default eq_str].
  replace ("default" =? "default")%string with true by reflexivity.
  cbn [InceptionModel._expand_to_blocks].
  set (policy := fun i : Z => if i mod 3 =? 2 then PyBool true else PyBool false).
  assert (Hlen : len (map policy (range n)) = n).
  { unfold len. rewrite length_map. now apply len_range. }
  rewrite Hlen, Z.eqb_refl.
  do 4 eexists. split; [reflexivity|]. split; [exact Hlen|]. split.
  - intros i Hi. rewrite index_map_range by exact Hi.
    unfold policy. now destruct (i mod 3 =? 2).
  - intros ->. reflexivity.
Qed.

Lemma default_residual_policy_witness :
  exists channels bottlenecks kernels flags,
    InceptionModel.expand_all 6 2 (Scalar 8) (Scalar 4) (PerBlock [9; 9; 9; 9; 9; 9])
      (Scalar (PyStr "default"))
    = Ok (channels, bottlenecks, kernels, flags) /\
    len flags = 6 /\
    (forall i, 0 <= i < 6 -> index flags i = Ok (PyBool (i mod 3 =? 2))) /\
    (6 = 6 ->
       flags = [PyBool false; PyBool false; PyBool true;
                PyBool false; PyBool false; PyBool true]).
Proof.
  apply (default_residual_policy 6 2 (Scalar 8) (Scalar 4) (PerBlock [9; 9; 9; 9; 9; 9]));
    simpl; try lia; try exact I; reflexivity.
Defined.

(** C7. A per-block hyperparameter whose length is not [num_blocks] makes
    construction raise the assertion of [_expand_to_blocks], and the
    registry of built layers is left as it was: nothing has been built. *)
Theorem mismatched_list_fails_before_building :
  forall (num_blocks in_channels : Z)
         (out_channels bottleneck_channels kernel_sizes : hyper Z)
         (use_residuals : hyper flag) (num_pred_classes : Z) (built : registry),
    ~ well_sized out_channels num_blocks \/
    ~ well_sized bottleneck_channels num_blocks \/
    ~ well_sized kernel_sizes num_blocks \/
    ~ well_sized use_residuals num_blocks ->
    exists got,
      got <> num_blocks /\
      InceptionModel.__init__ num_blocks in_channels out_channels
        bottleneck_channels kernel_sizes use_residuals num_pred_classes built
      = (Raise (AssertionError num_blocks got), built).
Proof.
  intros n ic oc bc ks ur npc built Hbad.
  unfold InceptionModel.__init__, Torch.bindB, Torch.lift, InceptionModel.expand_all.
  destruct (expand_cases oc n) as [[H1 [l1 E1]]|[_ [g [Hg E1]]]]; rewrite E1;
    cbn [Py.bind]; [|now exists g].
  destruct (expand_cases bc n) as [[H2 [l2 E2]]|[_ [g [Hg E2]]]]; rewrite E2;
    cbn [Py.bind]; [|now exists g].
  destruct (expand_cases ks n) as [[H3 [l3 E3]]|[_ [g [Hg E3]]]]; rewrite E3;
    cbn [Py.bind]; [|now exists g].
  assert (H4 : ~ well_sized ur n) by tauto.
  destruct ur as [f|l]; [now elim H4|].
  cbn [InceptionModel.is_default].
  destruct (expand_cases (PerBlock l) n) as [[H5 _]|[_ [g [Hg E4]]]];
    [contradiction|].
  rewrite E4. cbn [Py.bind]. now exists g.
Qed.

Lemma mismatched_list_fails_before_building_witness :
  exists got,
    got <> 3 /\
    InceptionModel.__init__ 3 2 (Scalar 8) (Scalar 4) (PerBlock [9; 9])
      (Scalar (PyBool false)) 3 []
    = (Raise (AssertionError 3 got), []).
Proof.
  apply (mismatched_list_fails_before_building 3 2 (Scalar 8) (Scalar 4)
           (PerBlock [9; 9]) (Scalar (PyBool false)) 3 []).
  right. right. left. simpl. unfold len. simpl. lia.
Defined.


(** ** [conv1d_same_padding] *)

(** The floor-division idiom of the source is the ceiling of the ratio. *)
Lemma ceil_ratio_floor (a b : Z) : 0 < b -> ceil_ratio a b = (a + b - 1) / b.
Proof.
  intros Hb. unfold ceil_ratio, Qceiling, Qfloor.
  destruct b as [|p|p]; try lia.
  unfold Qdiv, Qinv, inject_Z, Qmult, Qopp. simpl Qnum. simpl Qden.
  rewrite Z.mul_1_r. set (b := Z.pos p) in *.
  pose proof (Z.div_mod (- a) b ltac:(lia)) as E1.
  pose proof (Z.mod_pos_bound (- a) b Hb) as B1.
  pose proof (Z.div_mod (a + b - 1) b ltac:(lia)) as E2.
  pose proof (Z.mod_pos_bound (a + b - 1) b Hb) as B2.
  nia.
Qed.

Lemma padding_length_eq (input weight : Tensor) (stride dilation c w1 : Z) :
  size input 1 = Ok c -> size weight 1 = Ok w1 -> stride <> 0 ->
  padding_length input weight stride dilation
  = Ok (Z.max 0 (((c + stride - 1) / stride - 1) * stride
                 + ((w1 - 1) * dilation + 1) - c)).
Proof.
  intros Hc Hw Hs. unfold padding_length, floordiv. rewrite Hc, Hw.
  cbn [Py.bind]. destruct (Z.eqb_spec stride 0); [contradiction|]. reflexivity.
Qed.

(** C10. The padding amount is a function of the sizes of input and weight
    along dimension 1 (and of stride and dilation): inputs that agree there
    get the same padding whatever their last dimension, and for a positive
    stride the amount is
    [max(0, (ceil(c / s) - 1) * s + (w1 - 1) * d + 1 - c)]. *)
Theorem padding_from_dimension_one :
  (forall (input1 input2 weight : Tensor) (stride dilation : Z),
      size input1 1 = size input2 1 ->
      padding_length input1 weight stride dilation
      = padding_length input2 weight stride dilation) /\
  (forall (input weight : Tensor) (stride dilation c w1 : Z),
      size input 1 = Ok c ->
      size weight 1 = Ok w1 ->
      0 < stride ->
      padding_length input weight stride dilation
      = Ok (Z.max 0 ((ceil_ratio c stride - 1) * stride
                     + (w1 - 1) * dilation + 1 - c))).
Proof.
  split.
  - intros input1 input2 weight stride dilation E. unfold padding_length.
    now rewrite E.
  - intros input weight stride dilation c w1 Hc Hw Hs.
    rewrite (padding_length_eq input weight stride dilation c w1 Hc Hw) by lia.
    rewrite ceil_ratio_floor by exact Hs. f_equal. lia.
Qed.

Lemma padding_from_dimension_one_witness :
  padding_length (input_of [5; 2; 50]) (mkTensor [8; 2; 9] (Param 0 "weight")) 1 1
  = padding_length (input_of [5; 2; 7]) (mkTensor [8; 2; 9] (Param 0 "weight")) 1 1 /\
  padding_length (input_of [5; 2; 50]) (mkTensor [8; 2; 9] (Param 0 "weight")) 1 1
  = Ok (Z.max 0 ((ceil_ratio 2 1 - 1) * 1 + (2 - 1) * 1 + 1 - 2)).
Proof.
  destruct padding_from_dimension_one as [Hsame Hformula]. split.
  - apply Hsame. reflexivity.
  - apply Hformula; [reflexivity | reflexivity | lia].
Defined.

(** What [F.conv1d] returns, when it returns. *)
Lemma F_conv1d_value (x w : Tensor) (b : option Tensor) (s p d g : Z) (y : Tensor) :
  F_conv1d x w b s p d g = Ok y ->
  value y = Conv1d (value x) (value w) (option_map value b) s p d g.
Proof.
  unfold F_conv1d. intros H.
  destruct (shape w) as [|c_out [|c_w [|k [|? ?]]]]; try discriminate.
  destruct (shape x) as [|n [|c_in [|l [|? ?]]]]; try discriminate;
    destruct (conv1d_length _ _ _ _ _ _ _ _ _ _ _); try discriminate;
    cbn [Py.bind] in H; injection H as <-; reflexivity.
Qed.

Lemma F_conv1d_batch (x w : Tensor) (b : option Tensor) (s p d g : Z) (y : Tensor)
    (n c l : Z) :
  F_conv1d x w b s p d g = Ok y -> shape x = [n; c; l] ->
  exists o l', shape y = [n; o; l'].
Proof.
  unfold F_conv1d. intros H Hx. rewrite Hx in H.
  destruct (shape w) as [|c_out [|c_w [|k [|? ?]]]]; try discriminate.
  destruct (conv1d_length _ _ _ _ _ _ _ _ _ _ _); try discriminate.
  cbn [Py.bind] in H. injection H as <-. cbn [shape]. eauto.
Qed.

(** [F.conv1d] on a batched input with channels that is not an empty
    sequence of a non-empty batch, and a bias-free weight with at least one
    output channel, matching input channels and a kernel of size at least
    1: the only possible failure is a kernel longer than the padded
    sequence. *)
Lemma F_conv1d_batched (x w : Tensor) (n c l o k s p d : Z) :
  shape x = [n; c; l] -> shape w = [o; c; k] ->
  0 <= p -> 0 < s -> 0 < d -> 1 <= k -> l <> 0 \/ n = 0 ->
  1 <= o -> c <> 0 ->
  F_conv1d x w None s p d 1
  = if l + 2 * p <? d * (k - 1) + 1
    then Raise (RuntimeError "Kernel size can't be greater than actual input size")
    else Ok (mkTensor [n; o; (l + 2 * p - d * (k - 1) - 1) / s + 1]
                      (Conv1d (value x) (value w) None s p d 1)).
Proof.
  intros Hx Hw Hp Hs Hd Hk Hl Ho Hc. unfold F_conv1d, conv1d_length.
  rewrite Hx, Hw.
  destruct (Z.ltb_spec p 0); [lia|].
  destruct (Z.leb_spec s 0); [lia|].
  destruct (Z.leb_spec d 0); [lia|].
  destruct (Z.leb_spec k 0); [lia|].
  destruct (Z.ltb_spec o 1); [lia|].
  destruct (Z.eqb_spec c 0); [contradiction|].
  assert (E : (l =? 0) && negb (n =? 0) = false).
  { destruct (Z.eqb_spec l 0); [|reflexivity].
    destruct (Z.eqb_spec n 0); [reflexivity|lia]. }
  rewrite E.
  cbn [Z.leb Z.compare andb negb]. rewrite Z.mod_1_r, Z.mul_1_r, !Z.eqb_refl.
  cbn [negb Z.eqb]. destruct (_ <? _); reflexivity.
Qed.

(** [F.conv1d] rejects an empty sequence of a non-empty batch with at least
    one channel, however much padding the call asks for. *)
Lemma F_conv1d_empty (x w : Tensor) (n c o k s p d : Z) :
  shape x = [n; c; 0] -> shape w = [o; c; k] ->
  0 <= p -> 0 < s -> 0 < d -> 1 <= k -> n <> 0 -> c <> 0 ->
  d * (k - 1) + 1 <= 2 * p -> 1 <= o ->
  F_conv1d x w None s p d 1
  = Raise (RuntimeError "Only zero batch or zero channel inputs are supported").
Proof.
  intros Hx Hw Hp Hs Hd Hk Hn Hc Hfit Ho. unfold F_conv1d, conv1d_length.
  rewrite Hx, Hw.
  destruct (Z.ltb_spec p 0); [lia|].
  destruct (Z.leb_spec s 0); [lia|].
  destruct (Z.leb_spec d 0); [lia|].
  destruct (Z.ltb_spec o 1); [lia|].
  destruct (Z.eqb_spec n 0); [lia|].
  destruct (Z.eqb_spec c 0); [lia|].
  cbn [Z.leb Z.compare andb negb]. rewrite Z.mod_1_r, Z.mul_1_r, !Z.eqb_refl.
  cbn [negb Z.eqb].
  destruct (Z.ltb_spec (0 + 2 * p) (d * (k - 1) + 1)); [lia|]. reflexivity.
Qed.

Lemma odd_mod2 (p : Z) : Z.odd p = true -> negb (p mod 2 =? 0) = true.
Proof.
  intros H. rewrite Zmod_odd, H. reflexivity.
Qed.

(** C4. When the total padding [p] is odd, the input is padded by no entry
    on the left and one entry on the right, and the convolution is then
    called with the symmetric padding [p // 2]; together they account for
    all of [p]. *)
Theorem odd_padding_goes_right :
  forall (input weight : Tensor) (bias : option Tensor)
         (stride dilation groups p : Z),
    padding_length input weight stride dilation = Ok p ->
    Z.odd p = true ->
    conv1d_same_padding input weight bias stride dilation groups
    = (padded <- F_pad input 0 1 ;;
       F_conv1d padded weight bias stride (p / 2) dilation groups) /\
    0 + 1 + 2 * (p / 2) = p /\
    (forall out,
        conv1d_same_padding input weight bias stride dilation groups = Ok out ->
        value out = Conv1d (Pad (value input) 0 1) (value weight)
                           (option_map value bias) stride (p / 2) dilation groups).
Proof.
  intros input weight bias stride dilation groups p Hp Hodd.
  assert (E : conv1d_same_padding input weight bias stride dilation groups
              = (padded <- F_pad input 0 1 ;;
                 F_conv1d padded weight bias stride (p / 2) dilation groups)).
  { unfold conv1d_same_padding. rewrite Hp. cbn [Py.bind].
    rewrite (odd_mod2 p Hodd). reflexivity. }
  split; [exact E|]. split.
  - rewrite (Z.div_mod p 2) at 2 by lia. rewrite Zmod_odd, Hodd. lia.
  - intros out Hout. rewrite E in Hout. unfold F_pad in Hout.
    destruct (shape input) as [|d s] eqn:Hs; [discriminate|].
    destruct (_ <? 0); [discriminate|]. cbn [Py.bind] in Hout.
    now rewrite (F_conv1d_value _ _ _ _ _ _ _ _ Hout).
Qed.

Lemma size_1_of_shape (t : Tensor) (n c l : Z) :
  shape t = [n; c; l] -> size t 1 = Ok c.
Proof. intros H. unfold size. now rewrite H. Qed.

Lemma unit_stride_padding (input weight : Tensor) (n c l o k : Z) :
  shape input = [n; c; l] -> shape weight = [o; c; k] -> 1 <= c ->
  padding_length input weight 1 1 = Ok (c - 1).
Proof.
  intros Hi Hw Hc.
  rewrite (padding_length_eq input weight 1 1 c c
             (size_1_of_shape _ _ _ _ Hi) (size_1_of_shape _ _ _ _ Hw)) by lia.
  rewrite Z.div_1_r. f_equal. lia.
Qed.

Lemma empty_unpadded_false (n c l : Z) : 1 <= l -> empty_unpadded n c l = false.
Proof.
  intros Hl. unfold empty_unpadded. destruct (Z.eqb_spec l 0); [lia|reflexivity].
Qed.

Lemma unit_stride_output_length_gen (input weight : Tensor) (n c l o k : Z) :
  shape input = [n; c; l] -> shape weight = [o; c; k] ->
  1 <= c -> 1 <= o -> 0 <= l -> 1 <= k <= l + c - 1 ->
  empty_unpadded n c l = false ->
  exists out,
    conv1d_same_padding input weight None 1 1 1 = Ok out /\
    shape out = [n; o; l + c - k].
Proof.
  intros Hi Hw Hc Ho Hl Hk He. unfold conv1d_same_padding.
  rewrite (unit_stride_padding input weight n c l o k Hi Hw Hc). cbn [Py.bind].
  pose proof (Z.div_mod (c - 1) 2 ltac:(lia)) as Hdm.
  pose proof (Z.mod_pos_bound (c - 1) 2 ltac:(lia)) as Hmb.
  unfold empty_unpadded in He.
  destruct (Z.eqb_spec ((c - 1) mod 2) 0) as [Hev|Hodd]; cbn [negb Z.b2z].
  - cbn [Py.bind].
    assert (Hne : l <> 0 \/ n = 0).
    { destruct (Z.eqb_spec l 0); [|now left].
      destruct (Z.eqb_spec n 0); [now right|discriminate]. }
    rewrite (F_conv1d_batched input weight n c l o k 1 ((c - 1) / 2) 1 Hi Hw)
      by (assumption || lia).
    destruct (Z.ltb_spec (l + 2 * ((c - 1) / 2)) (1 * (k - 1) + 1)); [lia|].
    eexists. split; [reflexivity|]. cbn [shape]. rewrite Z.div_1_r.
    do 2 f_equal. f_equal. lia.
  - unfold F_pad. rewrite Hi. cbn [List.last].
    destruct (Z.ltb_spec (l + 0 + 1) 0); [lia|]. cbn [Py.bind on_last].
    rewrite (F_conv1d_batched
               (mkTensor [n; c; l + 0 + 1] (Pad (value input) 0 1))
               weight n c (l + 0 + 1) o k 1 ((c - 1) / 2) 1 eq_refl Hw) by lia.
    destruct (Z.ltb_spec (l + 0 + 1 + 2 * ((c - 1) / 2)) (1 * (k - 1) + 1)); [lia|].
    eexists. split; [reflexivity|]. cbn [shape]. rewrite Z.div_1_r.
    do 2 f_equal. f_equal. lia.
Qed.

Lemma unit_stride_empty_raises (input weight : Tensor) (n c l o k : Z) :
  shape input = [n; c; l] -> shape weight = [o; c; k] ->
  1 <= c -> 1 <= o -> 0 <= l -> 1 <= k <= l + c - 1 ->
  empty_unpadded n c l = true ->
  conv1d_same_padding input weight None 1 1 1
  = Raise (RuntimeError "Only zero batch or zero channel inputs are supported").
Proof.
  intros Hi Hw Hc Ho Hl Hk He. unfold conv1d_same_padding.
  rewrite (unit_stride_padding input weight n c l o k Hi Hw Hc). cbn [Py.bind].
  pose proof (Z.div_mod (c - 1) 2 ltac:(lia)) as Hdm.
  unfold empty_unpadded in He.
  destruct (Z.eqb_spec l 0) as [->|]; [|discriminate].
  destruct (Z.eqb_spec n 0); [discriminate|].
  destruct (Z.eqb_spec ((c - 1) mod 2) 0) as [Hev|]; [|discriminate].
  cbn [negb Z.b2z Py.bind].
  apply (F_conv1d_empty input weight n c o k 1 ((c - 1) / 2) 1 Hi Hw); lia.
Qed.

Lemma unit_stride_output_length (input weight : Tensor) (n c l o k : Z) :
  shape input = [n; c; l] -> shape weight = [o; c; k] ->
  1 <= c -> 1 <= o -> 1 <= l -> 1 <= k <= l + c - 1 ->
  exists out,
    conv1d_same_padding input weight None 1 1 1 = Ok out /\
    shape out = [n; o; l + c - k].
Proof.
  intros Hi Hw Hc Ho Hl Hk.
  apply (unit_stride_output_length_gen input weight n c l o k); try assumption;
    [lia | now apply empty_unpadded_false].
Qed.

Lemma odd_padding_goes_right_witness :
  conv1d_same_padding (input_of [5; 2; 50]) (mkTensor [8; 2; 9] (Param 0 "weight"))
    None 1 1 1
  = (padded <- F_pad (input_of [5; 2; 50]) 0 1 ;;
     F_conv1d padded (mkTensor [8; 2; 9] (Param 0 "weight")) None 1 (1 / 2) 1 1) /\
  0 + 1 + 2 * (1 / 2) = 1 /\
  (forall out,
      conv1d_same_padding (input_of [5; 2; 50])
        (mkTensor [8; 2; 9] (Param 0 "weight")) None 1 1 1 = Ok out ->
      value out = Conv1d (Pad (value (input_of [5; 2; 50])) 0 1)
                         (value (mkTensor [8; 2; 9] (Param 0 "weight")))
                         (option_map value None) 1 (1 / 2) 1 1).
Proof.
  apply (odd_padding_goes_right (input_of [5; 2; 50])
           (mkTensor [8; 2; 9] (Param 0 "weight")) None 1 1 1 1);
    reflexivity.
Defined.

(** With an even total padding nothing is appended: the convolution alone
    pads [p // 2] on both sides. *)
Lemma even_padding_is_symmetric (input weight : Tensor) (bias : option Tensor)
    (stride dilation groups p : Z) :
  padding_length input weight stride dilation = Ok p ->
  Z.odd p = false ->
  conv1d_same_padding input weight bias stride dilation groups
  = F_conv1d input weight bias stride (p / 2) dilation groups.
Proof.
  intros Hp Hev. unfold conv1d_same_padding. rewrite Hp. cbn [Py.bind].
  rewrite Zmod_odd, Hev. reflexivity.
Qed.

(** One channel, length 100, unit stride and dilation: the output has
    length [101 - k], which is 100 for [k = 1] only. *)
Lemma single_channel_output_length (k : Z) :
  1 <= k <= 100 ->
  exists out,
    conv1d_same_padding (input_of [1; 1; 100])
      (mkTensor [1; 1; k] (Param 0 "weight")) None 1 1 1 = Ok out /\
    shape out = [1; 1; 101 - k].
Proof.
  intros Hk.
  destruct (unit_stride_output_length (input_of [1; 1; 100])
              (mkTensor [1; 1; k] (Param 0 "weight")) 1 1 100 1 k)
    as [out [E S]]; try reflexivity; try lia.
  exists out. split; [exact E|]. rewrite S.
  now replace (100 + 1 - k) with (101 - k) by lia.
Qed.

(** C1. At input length 100, kernel length 41, stride 1 and dilation 1 the
    same-padding convolution returns length 60, where [ceil(100 / 1)] is
    100: the padding is computed from the channel counts. *)
Theorem same_padding_length_100_kernel_41 :
  (out <- conv1d_same_padding (input_of [1; 1; 100])
            (mkTensor [1; 1; 41] (Param 0 "weight")) None 1 1 1 ;;
   Ok (shape out)) = Ok [1; 1; 60] /\
  with_module (Conv1dSamePadding.__init__ 1 1 41 1 false)
    (fun conv => out <- Conv1dSamePadding.forward conv (input_of [1; 1; 100]) ;;
                 Ok (shape out)) = Ok [1; 1; 60] /\
  ceil_ratio 100 1 = 100.
Proof.
  repeat split; vm_compute; reflexivity.
Qed.

(** ** [InceptionBlock] *)

Lemma is_conv_intro (c_in c_out k s c_in' k' : Z) (id : nat) :
  c_in' = c_in -> k' = k ->
  is_conv {| Conv1dSamePadding.weight :=
               mkTensor [c_out; c_in'; k'] (Param id "weight");
             Conv1dSamePadding.bias := None;
             Conv1dSamePadding.stride := s;
             Conv1dSamePadding.dilation := 1;
             Conv1dSamePadding.groups := 1 |} c_in c_out k s.
Proof.
  intros -> ->. unfold is_conv. cbn. repeat split; eauto.
Qed.

(** The layer constructors: they fail exactly on a negative size, and a
    failed constructor registers nothing. *)
Lemma conv_init_cases (c_in c_out k s : Z) (r : registry) :
  (0 <= c_in /\ 0 <= c_out /\ 0 <= k /\
   exists c, Conv1dSamePadding.__init__ c_in c_out k s false r
             = (Ok c, (r ++ [LConv1d c_in c_out k s false])%list) /\
             is_conv c c_in c_out k s) \/
  ((c_in < 0 \/ c_out < 0 \/ k < 0) /\
   exists e, Conv1dSamePadding.__init__ c_in c_out k s false r = (Raise e, r)).
Proof.
  unfold Conv1dSamePadding.__init__.
  destruct (Z.ltb_spec c_in 0); [right; split; [lia|eexists; reflexivity]|].
  destruct (Z.ltb_spec c_out 0); [right; split; [lia|eexists; reflexivity]|].
  destruct (Z.ltb_spec k 0); [right; split; [lia|eexists; reflexivity]|].
  left. repeat split; try assumption. eexists. split; [reflexivity|].
  apply is_conv_intro; [exact (Z.div_1_r _)|reflexivity].
Qed.

Lemma norm_init_cases (n : Z) (r : registry) :
  (0 <= n /\
   exists b, BatchNorm1d.__init__ n r = (Ok b, (r ++ [LBatchNorm1d n])%list) /\
             BatchNorm1d.num_features b = n /\ BatchNorm1d.training b = true) \/
  (n < 0 /\ exists e, BatchNorm1d.__init__ n r = (Raise e, r)).
Proof.
  unfold BatchNorm1d.__init__.
  destruct (Z.ltb_spec n 0); [right; split; [lia|eexists; reflexivity]|].
  left. split; [assumption|]. eexists. repeat split.
Qed.

(** [InceptionBlock.__init__] with the comprehensions and the indexing of
    the channel and kernel lists carried out. *)
Lemma block_init_unfold (in_channels out_channels : Z) (residual : flag)
    (stride bottleneck_channels kernel_size : Z) (built : registry) :
  InceptionBlock.__init__ in_channels out_channels residual stride
    bottleneck_channels kernel_size built
  = (bottleneck <- (if bottleneck_channels >? 0
                    then b <- Conv1dSamePadding.__init__ in_channels
                                bottleneck_channels 1 1 false ;;
                         ret (Some b)
                    else ret None) ;;
     c1 <- Conv1dSamePadding.__init__ bottleneck_channels out_channels
             (kernel_size / 2 ^ 0) stride false ;;
     c2 <- Conv1dSamePadding.__init__ out_channels out_channels
             (kernel_size / 2 ^ 1) stride false ;;
     c3 <- Conv1dSamePadding.__init__ out_channels out_channels
             (kernel_size / 2 ^ 2) stride false ;;
     batchnorm <- BatchNorm1d.__init__ out_channels ;;
     relu <- ReLU.__init__ ;;
     residual_branch <- (if truthy residual
                         then c <- Conv1dSamePadding.__init__ in_channels
                                     out_channels 1 stride false ;;
                              b <- BatchNorm1d.__init__ out_channels ;;
                              r <- ReLU.__init__ ;;
                              ret (Some [Sequential.Conv c; Sequential.Norm b;
                                         Sequential.Act r])
                         else ret None) ;;
     ret {| InceptionBlock.use_bottleneck := bottleneck_channels >? 0;
            InceptionBlock.bottleneck := bottleneck;
            InceptionBlock.conv_layers :=
              [Sequential.Conv c1; Sequential.Conv c2; Sequential.Conv c3];
            InceptionBlock.batchnorm := batchnorm;
            InceptionBlock.relu := relu;
            InceptionBlock.use_residual := residual;
            InceptionBlock.residual := residual_branch |})%build built.
Proof.
  unfold InceptionBlock.__init__.
  change (comprehension (fun i => floordiv kernel_size (2 ^ i)) (range 3))
    with (Ok [kernel_size / 2 ^ 0; kernel_size / 2 ^ 1; kernel_size / 2 ^ 2]).
  destruct (bottleneck_channels >? 0); destruct (truthy residual);
    lazy -[Conv1dSamePadding.__init__ BatchNorm1d.__init__ ReLU.__init__
           Z.div Z.pow];
    repeat match goal with
           | |- context [Conv1dSamePadding.__init__ ?a ?b ?c ?d ?e ?r] =>
               destruct (Conv1dSamePadding.__init__ a b c d e r) as [[?|?] ?];
               [|reflexivity]
           | |- context [BatchNorm1d.__init__ ?a ?r] =>
               destruct (BatchNorm1d.__init__ a r) as [[?|?] ?]; [|reflexivity]
           | |- context [ReLU.__init__ ?r] =>
               destruct (ReLU.__init__ r) as [[?|?] ?]; [|reflexivity]
           end;
    reflexivity.
Qed.



Ltac run_constructor H :=
  match type of H with
  | context [Conv1dSamePadding.__init__ ?a ?b ?c ?d false ?r] =>
      let E := fresh "E" in
      destruct (conv_init_cases a b c d r)
        as [(? & ? & ? & ? & E & ?)|(_ & ? & E)];
      rewrite E in H; clear E; [|discriminate]
  | context [BatchNorm1d.__init__ ?a ?r] =>
      let E := fresh "E" in
      destruct (norm_init_cases a r) as [(? & ? & E & ? & ?)|(_ & ? & E)];
      rewrite E in H; clear E; [|discriminate]
  end;
  cbv beta iota delta [bindB ret ReLU.__init__ register] in H.

(** What a successful [InceptionBlock.__init__] has built: the layers
    registered, in order, and the attributes of the block. *)
Lemma block_init_structure (in_channels out_channels : Z) (residual : flag)
    (stride bottleneck_channels kernel_size : Z) (built built' : registry)
    (blk : InceptionBlock.t) :
  InceptionBlock.__init__ in_channels out_channels residual stride
    bottleneck_channels kernel_size built = (Ok blk, built') ->
  built' = (built
            ++ (if bottleneck_channels >? 0
                then [LConv1d in_channels bottleneck_channels 1 1 false]
                else [])
            ++ [LConv1d bottleneck_channels out_channels kernel_size stride false;
                LConv1d out_channels out_channels (kernel_size / 2) stride false;
                LConv1d out_channels out_channels (kernel_size / 4) stride false;
                LBatchNorm1d out_channels; LReLU]
            ++ (if truthy residual
                then [LConv1d in_channels out_channels 1 stride false;
                      LBatchNorm1d out_channels; LReLU]
                else []))%list /\
  InceptionBlock.use_bottleneck blk = (bottleneck_channels >? 0) /\
  (if bottleneck_channels >? 0
   then exists b, InceptionBlock.bottleneck blk = Some b /\
                  is_conv b in_channels bottleneck_channels 1 1
   else InceptionBlock.bottleneck blk = None) /\
  (exists c1 c2 c3,
      InceptionBlock.conv_layers blk
      = [Sequential.Conv c1; Sequential.Conv c2; Sequential.Conv c3] /\
      is_conv c1 bottleneck_channels out_channels kernel_size stride /\
      is_conv c2 out_channels out_channels (kernel_size / 2) stride /\
      is_conv c3 out_channels out_channels (kernel_size / 4) stride) /\
  BatchNorm1d.num_features (InceptionBlock.batchnorm blk) = out_channels /\
  InceptionBlock.use_residual blk = residual /\
  (if truthy residual
   then exists c b a,
       InceptionBlock.residual blk
       = Some [Sequential.Conv c; Sequential.Norm b; Sequential.Act a] /\
       is_conv c in_channels out_channels 1 stride /\
       BatchNorm1d.num_features b = out_channels /\
       BatchNorm1d.training b = true
   else InceptionBlock.residual blk = None).
Proof.
  rewrite block_init_unfold. unfold bindB, ret, ReLU.__init__, register.
  change (2 ^ 0) with 1. change (2 ^ 1) with 2. change (2 ^ 2) with 4.
  rewrite Z.div_1_r. intros H.
  destruct (bottleneck_channels >? 0); destruct (truthy residual);
    cbv beta iota delta [bindB ret ReLU.__init__ register] in H;
    repeat run_constructor H;
    injection H as <- <-; cbn [InceptionBlock.use_bottleneck
      InceptionBlock.bottleneck InceptionBlock.conv_layers
      InceptionBlock.batchnorm InceptionBlock.use_residual
      InceptionBlock.residual];
    (split; [rewrite <- !app_assoc; reflexivity|]);
    repeat match goal with
           | |- _ /\ _ => split
           | |- exists _, _ => eexists
           | |- is_conv _ _ _ _ _ => eassumption
           | |- _ = _ => first [reflexivity | eassumption]
           end.
Qed.


(** A same-padding convolution wraps its input in a convolution, after at
    most a one-entry pad on the right. *)
Lemma conv_forward_value (c : Conv1dSamePadding.t) (x y : Tensor) :
  Conv1dSamePadding.forward c x = Ok y ->
  exists padded p,
    (padded = value x \/ padded = Pad (value x) 0 1) /\
    value y = Conv1d padded (value (Conv1dSamePadding.weight c))
                     (option_map value (Conv1dSamePadding.bias c))
                     (Conv1dSamePadding.stride c) p
                     (Conv1dSamePadding.dilation c) (Conv1dSamePadding.groups c).
Proof.
  unfold Conv1dSamePadding.forward, conv1d_same_padding. intros H.
  destruct (padding_length _ _ _ _) as [p|e]; [|discriminate]. cbn [Py.bind] in H.
  destruct (negb (p mod 2 =? 0)).
  - unfold F_pad in H. destruct (shape x) as [|d s] eqn:Hs; [discriminate|].
    destruct (_ <? 0); [discriminate|]. cbn [Py.bind] in H.
    rewrite (F_conv1d_value _ _ _ _ _ _ _ _ H). cbn [value]. eauto.
  - cbn [Py.bind] in H. rewrite (F_conv1d_value _ _ _ _ _ _ _ _ H). eauto.
Qed.

Lemma conv_applies_nothing (c : Conv1dSamePadding.t) (c_in c_out k s : Z)
    (x y : Tensor) :
  is_conv c c_in c_out k s ->
  Conv1dSamePadding.forward c x = Ok y ->
  applies_norm_or_relu (value y) = applies_norm_or_relu (value x).
Proof.
  intros (_ & [id Hw] & Hb & _) H.
  destruct (conv_forward_value c x y H) as (padded & p & Hp & ->).
  rewrite Hw, Hb. cbn. rewrite !orb_false_r. now destruct Hp as [->| ->].
Qed.

(** The main path of a block built by [__init__] applies convolutions
    only: no batch normalisation and no rectifier. *)
Lemma main_path_applies_no_norm (in_channels out_channels : Z) (residual : flag)
    (stride bottleneck_channels kernel_size : Z) (built built' : registry)
    (blk : InceptionBlock.t) (x out : Tensor) :
  InceptionBlock.__init__ in_channels out_channels residual stride
    bottleneck_channels kernel_size built = (Ok blk, built') ->
  main_path blk x = Ok out ->
  applies_norm_or_relu (value out) = applies_norm_or_relu (value x).
Proof.
  intros Hinit.
  destruct (block_init_structure _ _ _ _ _ _ _ _ _ Hinit)
    as (_ & Hub & Hbn & (c1 & c2 & c3 & Hcl & H1 & H2 & H3) & _).
  unfold main_path. rewrite Hub, Hcl.
  unfold Sequential.forward. cbn [Sequential.forward_with Sequential.call].
  destruct (bottleneck_channels >? 0).
  - destruct Hbn as (b & -> & Hb). intros H.
    destruct (Conv1dSamePadding.forward b x) as [x0|] eqn:E0; [|discriminate].
    cbn [Py.bind] in H.
    destruct (Conv1dSamePadding.forward c1 x0) as [x1|] eqn:E1; [|discriminate].
    cbn [Py.bind] in H.
    destruct (Conv1dSamePadding.forward c2 x1) as [x2|] eqn:E2; [|discriminate].
    cbn [Py.bind] in H.
    destruct (Conv1dSamePadding.forward c3 x2) as [x3|] eqn:E3; [|discriminate].
    cbn [Py.bind] in H. inversion H; subst x3.
    rewrite (conv_applies_nothing _ _ _ _ _ _ _ H3 E3),
      (conv_applies_nothing _ _ _ _ _ _ _ H2 E2),
      (conv_applies_nothing _ _ _ _ _ _ _ H1 E1).
    exact (conv_applies_nothing _ _ _ _ _ _ _ Hb E0).
  - intros H. cbn [Py.bind] in H.
    destruct (Conv1dSamePadding.forward c1 x) as [x1|] eqn:E1; [|discriminate].
    cbn [Py.bind] in H.
    destruct (Conv1dSamePadding.forward c2 x1) as [x2|] eqn:E2; [|discriminate].
    cbn [Py.bind] in H.
    destruct (Conv1dSamePadding.forward c3 x2) as [x3|] eqn:E3; [|discriminate].
    cbn [Py.bind] in H. inversion H; subst x3.
    rewrite (conv_applies_nothing _ _ _ _ _ _ _ H3 E3),
      (conv_applies_nothing _ _ _ _ _ _ _ H2 E2).
    exact (conv_applies_nothing _ _ _ _ _ _ _ H1 E1).
Qed.

(** [forward], read as the main path followed by the optional residual
    addition. *)
Lemma forward_unfold (self : InceptionBlock.t) (x : Tensor) :
  InceptionBlock.forward self x
  = if truthy (InceptionBlock.use_residual self)
    then m <- main_path self x ;; r <- residual_path self x ;; add m r
    else main_path self x.
Proof.
  unfold InceptionBlock.forward, main_path, residual_path.
  destruct (InceptionBlock.use_bottleneck self).
  - destruct (InceptionBlock.bottleneck self) as [b|]; cbn [Py.bind].
    + destruct (Conv1dSamePadding.forward b x) as [x0|]; cbn [Py.bind].
      * destruct (Sequential.forward _ x0); cbn [Py.bind];
          destruct (truthy _); try reflexivity.
        now destruct (InceptionBlock.residual self).
      * now destruct (truthy _).
    + now destruct (truthy _).
  - cbn [Py.bind].
    destruct (Sequential.forward _ x); cbn [Py.bind];
      destruct (truthy _); try reflexivity.
    now destruct (InceptionBlock.residual self).
Qed.

Lemma broadcast_rev_same (s : list Z) : broadcast_rev s s = Some s.
Proof.
  induction s as [|d s IH]; [reflexivity|].
  cbn [broadcast_rev]. now rewrite IH, Z.eqb_refl.
Qed.

Lemma add_same_shape (a b : Tensor) :
  shape a = shape b ->
  add a b = Ok (mkTensor (shape a) (Add (value a) (value b))).
Proof.
  intros E. unfold add. rewrite <- E, broadcast_rev_same, rev_involutive.
  reflexivity.
Qed.

Lemma add_value (a b out : Tensor) :
  add a b = Ok out -> value out = Add (value a) (value b).
Proof.
  unfold add. destruct (broadcast_rev _ _); [|discriminate].
  intros H. now inversion H.
Qed.


(** The order of [forward]: with a truthy [use_residual] it runs the main
    path, then the residual branch on the block's own input, then adds the
    two; where the two shapes agree the sum has that shape.  With a falsy
    [use_residual], [forward] is the main path alone. *)
Lemma residual_added_to_main_path :
  forall (self : InceptionBlock.t) (x : Tensor),
    (truthy (InceptionBlock.use_residual self) = true ->
     InceptionBlock.forward self x
     = (m <- main_path self x ;; r <- residual_path self x ;; add m r) /\
     (forall m r,
         main_path self x = Ok m ->
         residual_path self x = Ok r ->
         shape m = shape r ->
         InceptionBlock.forward self x
         = Ok (mkTensor (shape m) (Add (value m) (value r)))) /\
     (forall out m r,
         InceptionBlock.forward self x = Ok out ->
         main_path self x = Ok m ->
         residual_path self x = Ok r ->
         value out = Add (value m) (value r))) /\
    (truthy (InceptionBlock.use_residual self) = false ->
     InceptionBlock.forward self x = main_path self x).
Proof.
  intros self x. rewrite forward_unfold. split; intros ->; [|reflexivity].
  split; [reflexivity|]. split.
  - intros m r -> -> E. cbn [Py.bind]. now apply add_same_shape.
  - intros out m r H Hm Hr. rewrite Hm, Hr in H. cbn [Py.bind] in H.
    now apply add_value.
Qed.

Lemma residual_added_to_main_path_witness :
  InceptionBlock.forward residual_block (input_of [5; 2; 50])
  = (m <- main_path residual_block (input_of [5; 2; 50]) ;;
     r <- residual_path residual_block (input_of [5; 2; 50]) ;;
     add m r) /\
  (forall m r,
      main_path residual_block (input_of [5; 2; 50]) = Ok m ->
      residual_path residual_block (input_of [5; 2; 50]) = Ok r ->
      shape m = shape r ->
      InceptionBlock.forward residual_block (input_of [5; 2; 50])
      = Ok (mkTensor (shape m) (Add (value m) (value r)))) /\
  (forall out m r,
      InceptionBlock.forward residual_block (input_of [5; 2; 50]) = Ok out ->
      main_path residual_block (input_of [5; 2; 50]) = Ok m ->
      residual_path residual_block (input_of [5; 2; 50]) = Ok r ->
      value out = Add (value m) (value r)).
Proof.
  apply (proj1 (residual_added_to_main_path residual_block (input_of [5; 2; 50]))).
  reflexivity.
Defined.

(** C5. The residual block [InceptionBlock(in_channels=2, out_channels=8,
    residual=True)], with the constructor's default [stride=1],
    [bottleneck_channels=32] and [kernel_size=41], on an input of shape
    [[5; 2; 50]]: the main path returns shape [[5; 8; 28]], the residual
    branch returns shape [[5; 8; 51]] on the same input, and [forward]
    raises at the addition instead of returning their sum.  The same block
    built with [residual=False] returns the main path's output. *)
Theorem residual_sum_rejected_for_default_block :
  with_module (InceptionBlock.__init__ 2 8 (PyBool true) 1 32 41)
    (fun blk => m <- main_path blk (input_of [5; 2; 50]) ;; Ok (shape m))
  = Ok [5; 8; 28] /\
  with_module (InceptionBlock.__init__ 2 8 (PyBool true) 1 32 41)
    (fun blk => r <- residual_path blk (input_of [5; 2; 50]) ;; Ok (shape r))
  = Ok [5; 8; 51] /\
  with_module (InceptionBlock.__init__ 2 8 (PyBool true) 1 32 41)
    (fun blk => InceptionBlock.forward blk (input_of [5; 2; 50]))
  = Raise (RuntimeError "the sizes of the tensors must match") /\
  with_module (InceptionBlock.__init__ 2 8 (PyBool false) 1 32 41)
    (fun blk => InceptionBlock.forward blk (input_of [5; 2; 50]))
  = with_module (InceptionBlock.__init__ 2 8 (PyBool false) 1 32 41)
      (fun blk => main_path blk (input_of [5; 2; 50])).
Proof.
  repeat split; reflexivity.
Qed.

(** The residual block on a [[5; 2; 50]] input: the second operand of the
    sum is the rectified, normalised 1x1 convolution of the input itself. *)
Example residual_block_run :
  build (InceptionBlock.__init__ 2 3 (PyBool true) 1 1 4)
  = (Ok residual_block,
     [LConv1d 2 1 1 1 false; LConv1d 1 3 4 1 false; LConv1d 3 3 2 1 false;
      LConv1d 3 3 1 1 false; LBatchNorm1d 3; LReLU;
      LConv1d 2 3 1 1 false; LBatchNorm1d 3; LReLU]) /\
  InceptionBlock.forward residual_block (input_of [5; 2; 50])
  = Ok (mkTensor [5; 3; 51]
          (Add
             (Conv1d
                (Conv1d
                   (Conv1d
                      (Conv1d (Pad (Input "x") 0 1) (Param 0 "weight") None 1 0 1 1)
                      (Param 1 "weight") None 1 0 1 1)
                   (Param 2 "weight") None 1 1 1 1)
                (Param 3 "weight") None 1 1 1 1)
             (Relu
                (BatchNorm 7
                   (Conv1d (Pad (Input "x") 0 1) (Param 6 "weight") None 1 0 1 1))))).
Proof.
  split; reflexivity.
Qed.

(** C2. For [InceptionBlock(2, 8, residual=False, bottleneck_channels=4,
    kernel_size=9)] on a [[5; 2; 50]] input: [__init__] builds the batch
    normalisation and the rectifier of the main path, and [forward] returns
    the output of the third convolution with neither applied. *)
Theorem main_path_skips_norm_and_relu :
  snd (build (InceptionBlock.__init__ 2 8 (PyBool false) 1 4 9))
  = [LConv1d 2 4 1 1 false; LConv1d 4 8 9 1 false; LConv1d 8 8 4 1 false;
     LConv1d 8 8 2 1 false; LBatchNorm1d 8; LReLU] /\
  with_module (InceptionBlock.__init__ 2 8 (PyBool false) 1 4 9)
    (fun blk => InceptionBlock.forward blk (input_of [5; 2; 50]))
  = Ok (mkTensor [5; 8; 56]
          (Conv1d
             (Pad
                (Conv1d
                   (Pad
                      (Conv1d
                         (Pad
                            (Conv1d (Pad (Input "x") 0 1) (Param 0 "weight")
                                    None 1 0 1 1)
                            0 1)
                         (Param 1 "weight") None 1 1 1 1)
                      0 1)
                   (Param 2 "weight") None 1 3 1 1)
                0 1)
             (Param 3 "weight") None 1 3 1 1)) /\
  with_module (InceptionBlock.__init__ 2 8 (PyBool false) 1 4 9)
    (fun blk => out <- InceptionBlock.forward blk (input_of [5; 2; 50]) ;;
                Ok (applies_norm_or_relu (value out)))
  = Ok false.
Proof.
  repeat split; reflexivity.
Qed.

(** Without a bottleneck ([bottleneck_channels <= 0]) no bottleneck layer
    is built, and the first convolution is sized with [bottleneck_channels]
    input channels, whatever [in_channels] is. *)
Lemma disabled_bottleneck_structure (in_channels out_channels : Z) (residual : flag)
    (stride bottleneck_channels kernel_size : Z) (built built' : registry)
    (blk : InceptionBlock.t) :
  bottleneck_channels <= 0 ->
  InceptionBlock.__init__ in_channels out_channels residual stride
    bottleneck_channels kernel_size built = (Ok blk, built') ->
  exists c1 rest,
    InceptionBlock.use_bottleneck blk = false /\
    InceptionBlock.bottleneck blk = None /\
    InceptionBlock.conv_layers blk = Sequential.Conv c1 :: rest /\
    is_conv c1 bottleneck_channels out_channels kernel_size stride.
Proof.
  intros Hb Hinit.
  destruct (block_init_structure _ _ _ _ _ _ _ _ _ Hinit)
    as (_ & Hub & Hbn & (c1 & c2 & c3 & Hcl & H1 & _) & _).
  destruct (Z.gtb_spec bottleneck_channels 0) as [Hgt|_]; [lia|].
  exists c1, [Sequential.Conv c2; Sequential.Conv c3]. auto.
Qed.

(** Such a block, built with [bottleneck_channels = 0] and the block's
    stride 1, rejects every batched input that has channels: its first
    convolution has a weight for 0 input channels (and, when
    [out_channels = 0], a weight with no output channel, which the
    convolution checks first). *)
Lemma disabled_bottleneck_rejects_input (in_channels out_channels : Z)
    (residual : flag) (kernel_size : Z) (built built' : registry)
    (blk : InceptionBlock.t) (x : Tensor) (n c l : Z) :
  InceptionBlock.__init__ in_channels out_channels residual 1 0 kernel_size built
  = (Ok blk, built') ->
  shape x = [n; c; l] -> c <> 0 ->
  InceptionBlock.forward blk x
  = Raise (RuntimeError
             (if out_channels <? 1
              then "expected weight to be at least groups at dimension 0"
              else "input channels do not match the weight")).
Proof.
  intros Hinit Hx Hc.
  destruct (disabled_bottleneck_structure in_channels out_channels residual 1 0
              kernel_size built built' blk ltac:(lia) Hinit)
    as (c1 & rest & Hub & _ & Hcl & Hs & _ & Hbias & Hst & Hd & Hg).
  unfold InceptionBlock.forward. rewrite Hub, Hcl. cbn [Py.bind].
  unfold Sequential.forward. cbn [Sequential.forward_with Sequential.call].
  unfold Conv1dSamePadding.forward, conv1d_same_padding.
  rewrite Hst, Hd, Hg, Hbias.
  rewrite (padding_length_eq x (Conv1dSamePadding.weight c1) 1 1 c 0)
    by (try lia; unfold size; now rewrite ?Hx, ?Hs).
  rewrite Z.div_1_r.
  replace (Z.max 0 _) with 0 by lia. cbn [Py.bind Z.modulo Z.div_eucl Z.eqb negb].
  unfold F_conv1d, conv1d_length. rewrite Hx, Hs.
  cbn [Z.ltb Z.leb Z.compare Z.div Z.div_eucl fst]. rewrite Z.mul_0_l, Z.mod_1_r.
  destruct (out_channels <? 1); [reflexivity|].
  destruct (Z.eqb_spec c 0); [contradiction|]. reflexivity.
Qed.

(** C3. For [InceptionBlock(2, 8, residual=False, bottleneck_channels=0,
    kernel_size=9)]: no bottleneck layer is built, the first convolution is
    built for 0 input channels instead of the 2 of [in_channels], and the
    block rejects an input with 2 channels. *)
Theorem disabled_bottleneck_first_conv_has_no_input_channels :
  snd (build (InceptionBlock.__init__ 2 8 (PyBool false) 1 0 9))
  = [LConv1d 0 8 9 1 false; LConv1d 8 8 4 1 false; LConv1d 8 8 2 1 false;
     LBatchNorm1d 8; LReLU] /\
  with_module (InceptionBlock.__init__ 2 8 (PyBool false) 1 0 9)
    (fun blk => Ok (InceptionBlock.use_bottleneck blk, InceptionBlock.bottleneck blk,
                    match InceptionBlock.conv_layers blk with
                    | Sequential.Conv c :: _ => shape (Conv1dSamePadding.weight c)
                    | _ => []
                    end))
  = Ok (false, None, [8; 0; 9]) /\
  with_module (InceptionBlock.__init__ 2 8 (PyBool false) 1 0 9)
    (fun blk => InceptionBlock.forward blk (input_of [5; 2; 50]))
  = Raise (RuntimeError "input channels do not match the weight").
Proof.
  repeat split; reflexivity.
Qed.

(** ** [InceptionModel] *)

(** The logits are the final linear layer applied to the mean, over the
    last axis, of the output of the blocks run in sequence; nothing is
    applied after the linear layer. *)
Lemma logits_are_linear_of_pooled (self : InceptionModel.t) (x out : Tensor) :
  InceptionModel.forward self x = Ok out ->
  exists y,
    Sequential.forward_with InceptionBlock.forward (InceptionModel.blocks self) x
    = Ok y /\
    value out = Affine (Linear.id (InceptionModel.linear self)) (Mean (value y) (-1)) /\
    (forall b c l, shape y = [b; c; l] ->
                   shape out = [b; Linear.out_features (InceptionModel.linear self)]).
Proof.
  unfold InceptionModel.forward. intros H.
  destruct (Sequential.forward_with _ _ x) as [y|]; [|discriminate].
  cbn [Py.bind] in H. exists y. split; [reflexivity|].
  unfold mean_last in H. destruct (shape y) as [|d s] eqn:Hs; [discriminate|].
  cbn [Py.bind] in H. unfold Linear.forward in H. cbn [shape value] in H.
  destruct (removelast (d :: s)) as [|d' s'] eqn:Hr; [discriminate|].
  destruct (_ =? _); [|discriminate]. inversion H. cbn [value shape].
  split; [reflexivity|]. intros b c l E. inversion E; subst.
  cbn in Hr. inversion Hr. reflexivity.
Qed.

(** C6. The stack [num_blocks=3, in_channels=2, out_channels=8,
    bottleneck_channels=4, kernel_sizes=9, use_residuals=False,
    num_pred_classes=3] maps an input of shape [[5; 2; 50]] to shape
    [[5; 3]], and raises on an input of shape [[5; 2; 1]]: the lengths
    inside the blocks drift with the channel counts. *)
Theorem stack_rejects_short_input :
  with_module (InceptionModel.__init__ 3 2 (Scalar 8) (Scalar 4) (Scalar 9)
                 (Scalar (PyBool false)) 3)
    (fun m => out <- InceptionModel.forward m (input_of [5; 2; 50]) ;;
              Ok (shape out))
  = Ok [5; 3] /\
  with_module (InceptionModel.__init__ 3 2 (Scalar 8) (Scalar 4) (Scalar 9)
                 (Scalar (PyBool false)) 3)
    (fun m => out <- Sequential.forward_with InceptionBlock.forward
                       (InceptionModel.blocks m) (input_of [5; 2; 50]) ;;
              Ok (shape out))
  = Ok [5; 8; 80] /\
  with_module (InceptionModel.__init__ 3 2 (Scalar 8) (Scalar 4) (Scalar 9)
                 (Scalar (PyBool false)) 3)
    (fun m => InceptionModel.forward m (input_of [5; 2; 1]))
  = Raise (RuntimeError "Kernel size can't be greater than actual input size").
Proof.
  repeat split; reflexivity.
Qed.

Lemma expand_len {A} (h : hyper A) (n : Z) (l : list A) :
  0 <= n -> InceptionModel._expand_to_blocks h n = Ok l -> len l = n.
Proof.
  intros Hn. destruct h as [v|l']; cbn [InceptionModel._expand_to_blocks].
  - intros H. injection H as <-. now apply len_replicate.
  - destruct (Z.eqb_spec (len l') n) as [E|E]; [|discriminate].
    intros H. injection H as <-. exact E.
Qed.



Lemma in_range (n i : Z) : In i (range n) -> 0 <= i < n.
Proof.
  unfold range. rewrite in_map_iff. intros (k & <- & Hk).
  apply in_seq in Hk. lia.
Qed.





(** Pooling and the linear layer turn a 3D output of the blocks into
    [[batch; out_features]], whatever its length. *)
Lemma pooled_logits_shape (self : InceptionModel.t) (x y : Tensor) (b c l : Z) :
  Sequential.forward_with InceptionBlock.forward (InceptionModel.blocks self) x
  = Ok y ->
  shape y = [b; c; l] ->
  c = Linear.in_features (InceptionModel.linear self) ->
  InceptionModel.forward self x
  = Ok (mkTensor [b; Linear.out_features (InceptionModel.linear self)]
          (Affine (Linear.id (InceptionModel.linear self)) (Mean (value y) (-1)))).
Proof.
  intros Hy Hs Hc. unfold InceptionModel.forward. rewrite Hy. cbn [Py.bind].
  unfold mean_last. rewrite Hs. cbn [Py.bind removelast].
  unfold Linear.forward. cbn [shape value List.last on_last].
  now rewrite Hc, Z.eqb_refl.
Qed.

(** * Further properties *)

(** ** [conv1d_same_padding]: errors, arithmetic and output shape *)

Lemma index_one_short {A} (l : list A) :
  (List.length l < 2)%nat -> index l 1 = Raise IndexError.
Proof.
  intros H. destruct l as [|a [|b l]]; cbn in H; try lia; reflexivity.
Qed.

Lemma index_one_long {A} (l : list A) :
  (2 <= List.length l)%nat -> exists a, index l 1 = Ok a.
Proof.
  intros H. destruct l as [|a [|b l]]; cbn in H; try lia. now exists b.
Qed.


(** X1. The errors of the padding computation: an input or a weight with
    fewer than two dimensions raises [IndexError], and with both sizes
    available a stride of 0 raises [ZeroDivisionError]. *)
Theorem same_padding_errors :
  forall (input weight : Tensor) (bias : option Tensor)
         (stride dilation groups : Z),
    ((List.length (shape input) < 2)%nat ->
     conv1d_same_padding input weight bias stride dilation groups
     = Raise IndexError) /\
    ((2 <= List.length (shape input))%nat ->
     (List.length (shape weight) < 2)%nat ->
     conv1d_same_padding input weight bias stride dilation groups
     = Raise IndexError) /\
    ((2 <= List.length (shape input))%nat ->
     (2 <= List.length (shape weight))%nat ->
     stride = 0 ->
     conv1d_same_padding input weight bias stride dilation groups
     = Raise ZeroDivisionError).
Proof.
  intros input weight bias stride dilation groups.
  unfold conv1d_same_padding, padding_length, size. repeat split.
  - intros H. now rewrite (index_one_short _ H).
  - intros Hi Hw. destruct (index_one_long _ Hi) as [c ->].
    now rewrite (index_one_short _ Hw).
  - intros Hi Hw ->. destruct (index_one_long _ Hi) as [c ->].
    destruct (index_one_long _ Hw) as [w ->]. reflexivity.
Qed.

Lemma same_padding_errors_witness :
  conv1d_same_padding (input_of [100]) (mkTensor [1; 1; 3] (Param 0 "weight"))
    None 1 1 1 = Raise IndexError /\
  conv1d_same_padding (input_of [1; 1; 100]) (mkTensor [3] (Param 0 "weight"))
    None 1 1 1 = Raise IndexError /\
  conv1d_same_padding (input_of [1; 1; 100]) (mkTensor [1; 1; 3] (Param 0 "weight"))
    None 0 1 1 = Raise ZeroDivisionError.
Proof.
  split; [|split].
  - apply (proj1 (same_padding_errors (input_of [100])
                    (mkTensor [1; 1; 3] (Param 0 "weight")) None 1 1 1)).
    cbn. lia.
  - apply (proj1 (proj2 (same_padding_errors (input_of [1; 1; 100])
                           (mkTensor [3] (Param 0 "weight")) None 1 1 1)));
      cbn; lia.
  - apply (proj2 (proj2 (same_padding_errors (input_of [1; 1; 100])
                           (mkTensor [1; 1; 3] (Param 0 "weight")) None 0 1 1)));
      cbn; lia.
Defined.

(** X2. At stride 1 the padding amount does not depend on the input at
    all: it is [max(0, (w1 - 1) * d)] for the weight's size [w1] along
    dimension 1. *)
Theorem unit_stride_padding_ignores_input :
  forall (input weight : Tensor) (dilation c w1 : Z),
    size input 1 = Ok c ->
    size weight 1 = Ok w1 ->
    padding_length input weight 1 dilation = Ok (Z.max 0 ((w1 - 1) * dilation)).
Proof.
  intros input weight dilation c w1 Hc Hw.
  rewrite (padding_length_eq input weight 1 dilation c w1 Hc Hw) by lia.
  rewrite Z.div_1_r. f_equal. lia.
Qed.

Lemma unit_stride_padding_ignores_input_witness :
  padding_length (input_of [5; 2; 50]) (mkTensor [8; 4; 9] (Param 0 "weight")) 1 2
  = Ok (Z.max 0 ((4 - 1) * 2)).
Proof.
  apply (unit_stride_padding_ignores_input (input_of [5; 2; 50])
           (mkTensor [8; 4; 9] (Param 0 "weight")) 2 2 4); reflexivity.
Defined.

(** X3. The padding amount is the one that keeps [ceil(c / s)] entries of
    a sequence of length [c] under a kernel of length [w1]: with [p] the
    computed padding, the convolution's length rule
    [(c + p - d * (w1 - 1) - 1) // s + 1] gives [ceil(c / s)], where [c] and
    [w1] are the sizes along dimension 1. *)
Theorem padding_keeps_ceiling_of_dimension_one :
  forall (input weight : Tensor) (stride dilation c w1 p : Z),
    size input 1 = Ok c ->
    size weight 1 = Ok w1 ->
    0 < stride -> 0 < dilation -> 1 <= c -> 1 <= w1 ->
    padding_length input weight stride dilation = Ok p ->
    (c + p - dilation * (w1 - 1) - 1) / stride + 1 = ceil_ratio c stride.
Proof.
  intros input weight s d c w1 p Hc Hw Hs Hd Hc1 Hw1 Hp.
  rewrite (padding_length_eq input weight s d c w1 Hc Hw) in Hp by lia.
  injection Hp as <-. rewrite ceil_ratio_floor by exact Hs.
  set (q := (c + s - 1) / s).
  assert (Hq : (q - 1) * s < c <= q * s).
  { unfold q. pose proof (Z.div_mod (c + s - 1) s ltac:(lia)).
    pose proof (Z.mod_pos_bound (c + s - 1) s Hs). nia. }
  assert (E : forall t, (q - 1) * s <= t < q * s -> t / s + 1 = q).
  { intros t Ht. assert (t / s = q - 1); [|lia].
    symmetry. apply (Z.div_unique t s (q - 1) (t - (q - 1) * s)); lia. }
  apply E. nia.
Qed.

Lemma padding_keeps_ceiling_of_dimension_one_witness :
  (4 + 3 - 1 * (4 - 1) - 1) / 1 + 1 = ceil_ratio 4 1.
Proof.
  apply (padding_keeps_ceiling_of_dimension_one (input_of [5; 4; 50])
           (mkTensor [8; 4; 9] (Param 0 "weight")) 1 1 4 4 3);
    try reflexivity; lia.
Defined.



(** ** [InceptionBlock]: layers built and lengths at stride 1 *)



Lemma conv_unit_stride_shape_gen (conv : Conv1dSamePadding.t) (c_in c_out k : Z)
    (x : Tensor) (n l : Z) :
  is_conv conv c_in c_out k 1 ->
  shape x = [n; c_in; l] -> 1 <= c_in -> 1 <= c_out -> 0 <= l ->
  1 <= k <= l + c_in - 1 ->
  empty_unpadded n c_in l = false ->
  exists y,
    Conv1dSamePadding.forward conv x = Ok y /\
    shape y = [n; c_out; l + c_in - k].
Proof.
  intros (Hs & _ & Hb & Hst & Hd & Hg) Hx Hc Ho Hl Hk He.
  unfold Conv1dSamePadding.forward. rewrite Hb, Hst, Hd, Hg.
  now apply (unit_stride_output_length_gen x _ n c_in l c_out k).
Qed.

Lemma conv_unit_stride_empty (conv : Conv1dSamePadding.t) (c_in c_out k : Z)
    (x : Tensor) (n l : Z) :
  is_conv conv c_in c_out k 1 ->
  shape x = [n; c_in; l] -> 1 <= c_in -> 1 <= c_out -> 0 <= l ->
  1 <= k <= l + c_in - 1 ->
  empty_unpadded n c_in l = true ->
  Conv1dSamePadding.forward conv x
  = Raise (RuntimeError "Only zero batch or zero channel inputs are supported").
Proof.
  intros (Hs & _ & Hb & Hst & Hd & Hg) Hx Hc Ho Hl Hk He.
  unfold Conv1dSamePadding.forward. rewrite Hb, Hst, Hd, Hg.
  now apply (unit_stride_empty_raises x _ n c_in l c_out k).
Qed.

Lemma conv_unit_stride_shape (conv : Conv1dSamePadding.t) (c_in c_out k : Z)
    (x : Tensor) (n l : Z) :
  is_conv conv c_in c_out k 1 ->
  shape x = [n; c_in; l] -> 1 <= c_in -> 1 <= c_out -> 1 <= l ->
  1 <= k <= l + c_in - 1 ->
  exists y,
    Conv1dSamePadding.forward conv x = Ok y /\
    shape y = [n; c_out; l + c_in - k].
Proof.
  intros Hconv Hx Hc Ho Hl Hk.
  apply (conv_unit_stride_shape_gen conv c_in c_out k x n l); try assumption;
    [lia | now apply empty_unpadded_false].
Qed.

Lemma main_path_length_drift_gen :
  forall (in_channels out_channels : Z) (residual : flag)
         (bottleneck_channels kernel_size : Z) (built built' : registry)
         (blk : InceptionBlock.t) (x : Tensor) (n l : Z),
    InceptionBlock.__init__ in_channels out_channels residual 1
      bottleneck_channels kernel_size built = (Ok blk, built') ->
    shape x = [n; in_channels; l] ->
    1 <= in_channels -> 1 <= bottleneck_channels -> 1 <= out_channels ->
    4 <= kernel_size -> 0 <= l -> 2 <= l + in_channels ->
    kernel_size <= l + in_channels + bottleneck_channels - 2 ->
    kernel_size + kernel_size / 2
    <= l + in_channels + bottleneck_channels + out_channels - 2 ->
    kernel_size + kernel_size / 2 + kernel_size / 4
    <= l + in_channels + bottleneck_channels + 2 * out_channels - 2 ->
    empty_unpadded n in_channels l = false ->
    exists out,
      main_path blk x = Ok out /\
      shape out
      = [n; out_channels;
         l + (in_channels - 1 + bottleneck_channels + 2 * out_channels
              - (kernel_size + kernel_size / 2 + kernel_size / 4))].
Proof.
  intros ic oc res bc k built built' blk x n l Hinit Hx Hic Hbc Hoc Hk Hl H0 H1 H2 H3
         He.
  assert (Hk2 : 1 <= k / 2) by (apply Z.div_le_lower_bound; lia).
  assert (Hk4 : 1 <= k / 4) by (apply Z.div_le_lower_bound; lia).
  destruct (block_init_structure _ _ _ _ _ _ _ _ _ Hinit)
    as (_ & Hub & Hbn & (c1 & c2 & c3 & Hcl & I1 & I2 & I3) & _).
  unfold main_path. rewrite Hub, Hcl.
  destruct (Z.gtb_spec bc 0) as [_|Hle]; [|lia].
  destruct Hbn as (b & -> & Ib).
  destruct (conv_unit_stride_shape_gen b ic bc 1 x n l Ib Hx) as (x0 & -> & S0);
    try assumption; try lia.
  cbn [Py.bind]. unfold Sequential.forward.
  cbn [Sequential.forward_with Sequential.call].
  destruct (conv_unit_stride_shape c1 bc oc k x0 n _ I1 S0) as (x1 & -> & S1);
    try lia.
  cbn [Py.bind].
  destruct (conv_unit_stride_shape c2 oc oc (k / 2) x1 n _ I2 S1) as (x2 & -> & S2);
    try lia.
  cbn [Py.bind].
  destruct (conv_unit_stride_shape c3 oc oc (k / 4) x2 n _ I3 S2) as (x3 & -> & S3);
    try lia.
  cbn [Py.bind]. exists x3. split; [reflexivity|]. rewrite S3.
  do 2 f_equal. f_equal. lia.
Qed.

(** The bottleneck is the first convolution of the main path, so an empty
    sequence it rejects stops the main path. *)
Lemma main_path_empty_raises :
  forall (in_channels out_channels : Z) (residual : flag)
         (bottleneck_channels kernel_size : Z) (built built' : registry)
         (blk : InceptionBlock.t) (x : Tensor) (n l : Z),
    InceptionBlock.__init__ in_channels out_channels residual 1
      bottleneck_channels kernel_size built = (Ok blk, built') ->
    shape x = [n; in_channels; l] ->
    1 <= in_channels -> 1 <= bottleneck_channels ->
    0 <= l -> 2 <= l + in_channels ->
    empty_unpadded n in_channels l = true ->
    main_path blk x
    = Raise (RuntimeError "Only zero batch or zero channel inputs are supported").
Proof.
  intros ic oc res bc k built built' blk x n l Hinit Hx Hic Hbc Hl H0 He.
  destruct (block_init_structure _ _ _ _ _ _ _ _ _ Hinit)
    as (_ & Hub & Hbn & _).
  unfold main_path. rewrite Hub.
  destruct (Z.gtb_spec bc 0) as [_|Hle]; [|lia].
  destruct Hbn as (b & -> & Ib).
  rewrite (conv_unit_stride_empty b ic bc 1 x n l Ib Hx) by (assumption || lia).
  reflexivity.
Qed.

Lemma main_path_length_drift_aux :
  forall (in_channels out_channels : Z) (residual : flag)
         (bottleneck_channels kernel_size : Z) (built built' : registry)
         (blk : InceptionBlock.t) (x : Tensor) (n l : Z),
    InceptionBlock.__init__ in_channels out_channels residual 1
      bottleneck_channels kernel_size built = (Ok blk, built') ->
    shape x = [n; in_channels; l] ->
    1 <= in_channels -> 1 <= bottleneck_channels -> 1 <= out_channels ->
    4 <= kernel_size -> 1 <= l -> 2 <= l + in_channels ->
    kernel_size <= l + in_channels + bottleneck_channels - 2 ->
    kernel_size + kernel_size / 2
    <= l + in_channels + bottleneck_channels + out_channels - 2 ->
    kernel_size + kernel_size / 2 + kernel_size / 4
    <= l + in_channels + bottleneck_channels + 2 * out_channels - 2 ->
    exists out,
      main_path blk x = Ok out /\
      shape out
      = [n; out_channels;
         l + (in_channels - 1 + bottleneck_channels + 2 * out_channels
              - (kernel_size + kernel_size / 2 + kernel_size / 4))].
Proof.
  intros ic oc res bc k built built' blk x n l Hinit Hx Hic Hbc Hoc Hk Hl H0 H1 H2 H3.
  apply (main_path_length_drift_gen ic oc res bc k built built' blk x n l);
    try assumption; [lia | now apply empty_unpadded_false].
Qed.

(** X6. At stride 1 the main path of a block with a bottleneck changes the
    sequence length by [in_channels - 1 + bottleneck_channels
    + 2 * out_channels - (k + k // 2 + k // 4)]: each convolution adds its
    input channel count and removes its kernel size.  The one input it
    rejects is an empty sequence of a non-empty batch that reaches the
    first convolution unpadded ([in_channels - 1] even). *)
Theorem main_path_length_drift :
  forall (in_channels out_channels : Z) (residual : flag)
         (bottleneck_channels kernel_size : Z) (built built' : registry)
         (blk : InceptionBlock.t) (x : Tensor) (n l : Z),
    InceptionBlock.__init__ in_channels out_channels residual 1
      bottleneck_channels kernel_size built = (Ok blk, built') ->
    shape x = [n; in_channels; l] ->
    1 <= in_channels -> 1 <= bottleneck_channels -> 1 <= out_channels ->
    4 <= kernel_size -> 0 <= l -> 2 <= l + in_channels ->
    kernel_size <= l + in_channels + bottleneck_channels - 2 ->
    kernel_size + kernel_size / 2
    <= l + in_channels + bottleneck_channels + out_channels - 2 ->
    kernel_size + kernel_size / 2 + kernel_size / 4
    <= l + in_channels + bottleneck_channels + 2 * out_channels - 2 ->
    if empty_unpadded n in_channels l
    then main_path blk x
         = Raise (RuntimeError "Only zero batch or zero channel inputs are supported")
    else exists out,
      main_path blk x = Ok out /\
      shape out
      = [n; out_channels;
         l + (in_channels - 1 + bottleneck_channels + 2 * out_channels
              - (kernel_size + kernel_size / 2 + kernel_size / 4))].
Proof.
  intros ic oc res bc k built built' blk x n l Hinit Hx Hic Hbc Hoc Hk Hl H0 H1 H2 H3.
  destruct (empty_unpadded n ic l) eqn:He.
  - now apply (main_path_empty_raises ic oc res bc k built built' blk x n l).
  - now apply (main_path_length_drift_gen ic oc res bc k built built' blk x n l).
Qed.

Lemma main_path_length_drift_witness :
  exists out,
    main_path residual_block (input_of [5; 2; 50]) = Ok out /\
    shape out = [5; 3; 50 + (2 - 1 + 1 + 2 * 3 - (4 + 4 / 2 + 4 / 4))].
Proof.
  apply (main_path_length_drift 2 3 (PyBool true) 1 4 []
           [LConv1d 2 1 1 1 false; LConv1d 1 3 4 1 false; LConv1d 3 3 2 1 false;
            LConv1d 3 3 1 1 false; LBatchNorm1d 3; LReLU;
            LConv1d 2 3 1 1 false; LBatchNorm1d 3; LReLU]
           residual_block (input_of [5; 2; 50]) 5 50);
    try reflexivity; try lia; cbn; lia.
Defined.

Lemma residual_path_shape (in_channels out_channels : Z) (residual : flag)
    (bottleneck_channels kernel_size : Z) (built built' : registry)
    (blk : InceptionBlock.t) (x : Tensor) (n l : Z) :
  InceptionBlock.__init__ in_channels out_channels residual 1
    bottleneck_channels kernel_size built = (Ok blk, built') ->
  truthy residual = true ->
  shape x = [n; in_channels; l] ->
  1 <= in_channels -> 1 <= out_channels -> 1 <= l ->
  n * (l + in_channels - 1) <> 1 ->
  exists r,
    residual_path blk x = Ok r /\
    shape r = [n; out_channels; l + in_channels - 1] /\
    applies_norm_or_relu (value r) = true.
Proof.
  intros Hinit Hres Hx Hic Hoc Hl Hmany.
  destruct (block_init_structure _ _ _ _ _ _ _ _ _ Hinit)
    as (_ & _ & _ & _ & _ & _ & Hr).
  rewrite Hres in Hr. destruct Hr as (c & b & a & Hr & Ic & Hnf & Htr).
  unfold residual_path. rewrite Hr. unfold Sequential.forward.
  cbn [Sequential.forward_with Sequential.call].
  destruct (conv_unit_stride_shape c in_channels out_channels 1 x n l Ic Hx)
    as (y & -> & Sy); try lia.
  cbn [Py.bind]. unfold BatchNorm1d.forward, BatchNorm1d.normalise.
  rewrite Sy, Hnf, Htr, Z.eqb_refl.
  destruct (Z.eqb_spec (n * (l + in_channels - 1)) 1); [contradiction|].
  cbn [andb Py.bind]. unfold ReLU.forward. cbn [shape value].
  eexists. split; [reflexivity|]. split; reflexivity.
Qed.

Lemma add_lengths_differ (a b : Tensor) (n c la lb : Z) :
  shape a = [n; c; la] -> shape b = [n; c; lb] ->
  la <> lb -> la <> 1 -> lb <> 1 ->
  add a b = Raise (RuntimeError "the sizes of the tensors must match").
Proof.
  intros Ha Hb Hne H1 H2. unfold add. rewrite Ha, Hb.
  cbn [rev app broadcast_rev]. rewrite !Z.eqb_refl.
  destruct (Z.eqb_spec la lb); [contradiction|].
  destruct (Z.eqb_spec la 1); [contradiction|].
  destruct (Z.eqb_spec lb 1); [contradiction|]. reflexivity.
Qed.

(** With the constructor's default [bottleneck_channels=32] and
    [kernel_size=41] no number of output channels balances the two
    branches ([32 + 2 * out_channels] is even, [41 + 20 + 10] is odd): a
    residual block built with them raises at the addition on every batch
    of sequences long enough for its convolutions, unless the main path
    is left with a single entry. *)
Lemma default_residual_block_raises :
  forall (in_channels out_channels : Z) (built built' : registry)
         (blk : InceptionBlock.t) (x : Tensor) (n l : Z),
    InceptionBlock.__init__ in_channels out_channels (PyBool true) 1 32 41 built
    = (Ok blk, built') ->
    shape x = [n; in_channels; l] ->
    1 <= n -> 1 <= in_channels -> 1 <= out_channels -> 1 <= l ->
    11 <= l + in_channels ->
    31 <= l + in_channels + out_channels ->
    42 <= l + in_channels + 2 * out_channels ->
    InceptionBlock.forward blk x
    = Raise (RuntimeError "the sizes of the tensors must match").
Proof.
  intros ic oc built built' blk x n l Hinit Hx Hn Hic Hoc Hl H1 H2 H3.
  assert (E2 : 41 / 2 = 20) by reflexivity.
  assert (E4 : 41 / 4 = 10) by reflexivity.
  destruct (main_path_length_drift_aux ic oc (PyBool true) 32 41 built built' blk x n l)
    as (m & Hm & Sm); try assumption; try lia.
  destruct (residual_path_shape ic oc (PyBool true) 32 41 built built' blk x n l)
    as (r & Hr & Sr & _); try assumption; try reflexivity; [nia|].
  assert (Hflag : truthy (InceptionBlock.use_residual blk) = true).
  { destruct (block_init_structure _ _ _ _ _ _ _ _ _ Hinit)
      as (_ & _ & _ & _ & _ & Hu & _). now rewrite Hu. }
  rewrite forward_unfold, Hflag, Hm, Hr. cbn [Py.bind].
  apply (add_lengths_differ m r n oc _ _ Sm Sr); lia.
Qed.

(** X7. A residual block at stride 1, on a batch of at least one
    non-empty sequence: the residual branch keeps [l + in_channels - 1]
    entries, so the addition works on equal shapes exactly when
    [bottleneck_channels + 2 * out_channels = k + k // 2 + k // 4] (and
    then [forward] returns, provided the batch normalisation of the
    residual branch sees more than one value per channel); when the two
    lengths differ and neither is 1, [forward] raises the size mismatch of
    the addition. *)
Theorem residual_block_needs_balanced_widths :
  forall (in_channels out_channels : Z) (residual : flag)
         (bottleneck_channels kernel_size : Z) (built built' : registry)
         (blk : InceptionBlock.t) (x : Tensor) (n l : Z),
    InceptionBlock.__init__ in_channels out_channels residual 1
      bottleneck_channels kernel_size built = (Ok blk, built') ->
    truthy residual = true ->
    shape x = [n; in_channels; l] ->
    1 <= n ->
    1 <= in_channels -> 1 <= bottleneck_channels -> 1 <= out_channels ->
    4 <= kernel_size -> 1 <= l -> 2 <= l + in_channels ->
    kernel_size <= l + in_channels + bottleneck_channels - 2 ->
    kernel_size + kernel_size / 2
    <= l + in_channels + bottleneck_channels + out_channels - 2 ->
    kernel_size + kernel_size / 2 + kernel_size / 4
    <= l + in_channels + bottleneck_channels + 2 * out_channels - 2 ->
    let drift := bottleneck_channels + 2 * out_channels
                 - (kernel_size + kernel_size / 2 + kernel_size / 4) in
    (drift = 0 -> 2 <= n * (l + in_channels - 1) ->
     exists out,
       InceptionBlock.forward blk x = Ok out /\
       shape out = [n; out_channels; l + in_channels - 1]) /\
    (drift <> 0 -> l + in_channels - 1 <> 1 -> l + in_channels - 1 + drift <> 1 ->
     InceptionBlock.forward blk x
     = Raise (RuntimeError "the sizes of the tensors must match")).
Proof.
  intros ic oc res bc k built built' blk x n l Hinit Hres Hx Hn Hic Hbc Hoc Hk Hl
         H0 H1 H2 H3 drift.
  destruct (main_path_length_drift_aux ic oc res bc k built built' blk x n l)
    as (m & Hm & Sm); try assumption.
  assert (Hflag : truthy (InceptionBlock.use_residual blk) = true).
  { destruct (block_init_structure _ _ _ _ _ _ _ _ _ Hinit)
      as (_ & _ & _ & _ & _ & Hu & _). now rewrite Hu. }
  rewrite forward_unfold, Hflag, Hm. cbn [Py.bind]. split.
  - intros Hd Hmany.
    destruct (residual_path_shape ic oc res bc k built built' blk x n l)
      as (r & Hr & Sr & _); try assumption; [lia|].
    rewrite Hr. cbn [Py.bind]. rewrite add_same_shape.
    + eexists. split; [reflexivity|]. cbn [shape]. rewrite Sm.
      do 2 f_equal. f_equal. unfold drift in Hd. lia.
    + rewrite Sm, Sr. do 2 f_equal. f_equal. unfold drift in Hd. lia.
  - intros Hd Hr1 Hm1.
    destruct (residual_path_shape ic oc res bc k built built' blk x n l)
      as (r & Hr & Sr & _); try assumption; [nia|].
    rewrite Hr. cbn [Py.bind].
    apply (add_lengths_differ m r n oc _ _ Sm Sr); unfold drift in *; lia.
Qed.

Lemma residual_block_needs_balanced_widths_witness :
  (exists out,
      InceptionBlock.forward residual_block (input_of [5; 2; 50]) = Ok out /\
      shape out = [5; 3; 50 + 2 - 1]) /\
  InceptionBlock.forward unbalanced_residual_block (input_of [5; 2; 50])
  = Raise (RuntimeError "the sizes of the tensors must match").
Proof.
  split.
  - pose proof (residual_block_needs_balanced_widths 2 3 (PyBool true) 1 4 []
                  (snd (build (InceptionBlock.__init__ 2 3 (PyBool true) 1 1 4)))
                  residual_block (input_of [5; 2; 50]) 5 50) as H.
    cbv zeta in H. apply H; try reflexivity; try lia; cbn; lia.
  - pose proof (residual_block_needs_balanced_widths 2 8 (PyBool true) 4 9 []
                  (snd (build (InceptionBlock.__init__ 2 8 (PyBool true) 1 4 9)))
                  unbalanced_residual_block (input_of [5; 2; 50]) 5 50) as H.
    cbv zeta in H. apply H; try reflexivity; try lia; cbn; lia.
Defined.

(** ** [InceptionModel]: what construction builds and what [forward] returns *)

Lemma for_each_forall2 {A B} (P : A -> B -> Prop) (f : A -> Build B) :
  (forall x r y r', f x r = (Ok y, r') -> P x y) ->
  forall l r ys r', for_each f l r = (Ok ys, r') -> Forall2 P l ys.
Proof.
  intros Hf. induction l as [|x l IH]; intros r ys r' H.
  - cbn in H. injection H as <- _. constructor.
  - cbn [for_each] in H. unfold bindB at 1 in H.
    destruct (f x r) as [[y|e] r1] eqn:E1; [|discriminate].
    unfold bindB at 1 in H.
    destruct (for_each f l r1) as [[ys'|e] r2] eqn:E2; [|discriminate].
    cbn in H. injection H as <- _. constructor; eauto.
Qed.

Lemma model_init_inv (num_blocks in_channels : Z)
    (out_channels bottleneck_channels kernel_sizes : hyper Z)
    (use_residuals : hyper flag) (num_pred_classes : Z) (built built' : registry)
    (m : InceptionModel.t) :
  InceptionModel.__init__ num_blocks in_channels out_channels
    bottleneck_channels kernel_sizes use_residuals num_pred_classes built
  = (Ok m, built') ->
  exists channels bottlenecks kernels flags,
    InceptionModel.expand_all num_blocks in_channels out_channels
      bottleneck_channels kernel_sizes use_residuals
    = Ok (channels, bottlenecks, kernels, flags) /\
    Forall2 (block_of_config channels bottlenecks kernels flags)
            (range num_blocks) (InceptionModel.blocks m) /\
    index channels (-1) = Ok (Linear.in_features (InceptionModel.linear m)) /\
    Linear.out_features (InceptionModel.linear m) = num_pred_classes.
Proof.
  unfold InceptionModel.__init__. unfold bindB at 1. unfold lift at 1.
  destruct (InceptionModel.expand_all _ _ _ _ _ _)
    as [[[[channels bottlenecks] kernels] flags]|e]; [|discriminate].
  unfold bindB at 1.
  match goal with
  | |- context [for_each ?f (range num_blocks) built] =>
      destruct (for_each f (range num_blocks) built) as [[bs|e] r1] eqn:Eb;
        [|discriminate];
        pose proof (for_each_forall2
                      (block_of_config channels bottlenecks kernels flags) f) as HF
  end.
  unfold bindB at 1. unfold lift at 1.
  destruct (index channels (-1)) as [w|e] eqn:Ew; [|cbn; discriminate].
  unfold Linear.__init__.
  destruct ((w <? 0) || (num_pred_classes <? 0)); [cbn; discriminate|].
  cbn. intros H. injection H as <- _.
  exists channels, bottlenecks, kernels, flags.
  split; [reflexivity|]. split; [|split; [exact Ew|reflexivity]].
  cbn [InceptionModel.blocks]. apply (HF) with (r := built) (r' := r1); [|exact Eb].
  intros i r blk r'. unfold bindB, lift.
  destruct (index channels i) as [c_in|] eqn:E1; [|discriminate].
  destruct (index channels (i + 1)) as [c_out|] eqn:E2; [|discriminate].
  destruct (index flags i) as [res|] eqn:E3; [|discriminate].
  destruct (index bottlenecks i) as [b|] eqn:E4; [|discriminate].
  destruct (index kernels i) as [k|] eqn:E5; [|discriminate].
  intros E. exists c_in, c_out, res, b, k, r, r'. auto 10.
Qed.

Lemma forall2_nth_error {A B} (P : A -> B -> Prop) (l : list A) (ys : list B) :
  Forall2 P l ys ->
  forall k x, nth_error l k = Some x ->
              exists y, nth_error ys k = Some y /\ P x y.
Proof.
  induction 1 as [|x0 y0 l ys H0 _ IH]; intros k x Hk.
  - destruct k; discriminate.
  - destruct k as [|k]; cbn in *.
    + injection Hk as <-. eauto.
    + now apply IH.
Qed.

Lemma nth_error_range (n i : Z) :
  0 <= i < n -> nth_error (range n) (Z.to_nat i) = Some i.
Proof.
  intros Hi. unfold range. rewrite nth_error_map, nth_error_seq.
  destruct (Nat.ltb_spec (Z.to_nat i) (Z.to_nat n)) as [_|Hge]; [|lia].
  cbn. now rewrite Z2Nat.id by lia.
Qed.

(** X8. In a constructed stack, block [i] is the block built from the
    channel chain at [i] and [i + 1] and from the [i]-th residual flag,
    bottleneck width and kernel size, always with stride 1; there are as
    many blocks as [range(num_blocks)] has entries; and the linear layer
    maps the last entry of the channel chain to [num_pred_classes]. *)
Theorem stack_blocks_follow_config :
  forall (num_blocks in_channels : Z)
         (out_channels bottleneck_channels kernel_sizes : hyper Z)
         (use_residuals : hyper flag) (num_pred_classes : Z)
         (built built' : registry) (m : InceptionModel.t),
    InceptionModel.__init__ num_blocks in_channels out_channels
      bottleneck_channels kernel_sizes use_residuals num_pred_classes built
    = (Ok m, built') ->
    exists channels bottlenecks kernels flags,
      InceptionModel.expand_all num_blocks in_channels out_channels
        bottleneck_channels kernel_sizes use_residuals
      = Ok (channels, bottlenecks, kernels, flags) /\
      len (InceptionModel.blocks m) = Z.max 0 num_blocks /\
      (forall i, 0 <= i < num_blocks ->
         exists blk,
           index (InceptionModel.blocks m) i = Ok blk /\
           block_of_config channels bottlenecks kernels flags i blk) /\
      index channels (-1) = Ok (Linear.in_features (InceptionModel.linear m)) /\
      Linear.out_features (InceptionModel.linear m) = num_pred_classes.
Proof.
  intros n ic oc bc ks ur npc built built' m Hinit.
  destruct (model_init_inv _ _ _ _ _ _ _ _ _ _ Hinit)
    as (channels & bottlenecks & kernels & flags & E & HF & Hin & Hout).
  exists channels, bottlenecks, kernels, flags.
  split; [exact E|]. split; [|split; [|split; assumption]].
  - unfold len. rewrite <- (Forall2_length HF). unfold range.
    rewrite length_map, length_seq. lia.
  - intros i Hi.
    destruct (forall2_nth_error _ _ _ HF (Z.to_nat i) i (nth_error_range n i Hi))
      as (blk & Hnth & Hblk).
    exists blk. split; [|exact Hblk]. unfold index.
    destruct (Z.ltb_spec i 0); [lia|].
    destruct (Z.ltb_spec i 0); [lia|]. now rewrite Hnth.
Qed.

Lemma stack_blocks_follow_config_witness :
  exists channels bottlenecks kernels flags,
    InceptionModel.expand_all 3 2 (Scalar 8) (Scalar 4) (Scalar 9)
      (Scalar (PyBool false))
    = Ok (channels, bottlenecks, kernels, flags) /\
    len (InceptionModel.blocks example_stack) = Z.max 0 3 /\
    (forall i, 0 <= i < 3 ->
       exists blk,
         index (InceptionModel.blocks example_stack) i = Ok blk /\
         block_of_config channels bottlenecks kernels flags i blk) /\
    index channels (-1)
    = Ok (Linear.in_features (InceptionModel.linear example_stack)) /\
    Linear.out_features (InceptionModel.linear example_stack) = 3.
Proof.
  apply (stack_blocks_follow_config 3 2 (Scalar 8) (Scalar 4) (Scalar 9)
           (Scalar (PyBool false)) 3 []
           (snd (build (InceptionModel.__init__ 3 2 (Scalar 8) (Scalar 4)
                          (Scalar 9) (Scalar (PyBool false)) 3)))
           example_stack).
  reflexivity.
Defined.

Lemma conv_forward_batched (conv : Conv1dSamePadding.t) (x y : Tensor) (n : Z) :
  Conv1dSamePadding.forward conv x = Ok y -> batched n x -> batched n y.
Proof.
  unfold Conv1dSamePadding.forward, conv1d_same_padding.
  intros H (c & l & Hx).
  destruct (padding_length _ _ _ _) as [p|]; [|discriminate]. cbn [Py.bind] in H.
  destruct (negb (p mod 2 =? 0)).
  - unfold F_pad in H. rewrite Hx in H. cbn [List.last] in H.
    destruct (_ <? 0); [discriminate|]. cbn [Py.bind on_last] in H.
    destruct (F_conv1d_batch _ _ _ _ _ _ _ _ n c (l + 0 + Z.b2z true) H eq_refl)
      as (o & l' & Hy).
    now exists o, l'.
  - cbn [Py.bind] in H.
    destruct (F_conv1d_batch _ _ _ _ _ _ _ _ n c l H Hx) as (o & l' & Hy).
    now exists o, l'.
Qed.

Lemma add_batched (a b y : Tensor) (n : Z) :
  add a b = Ok y -> batched n a -> batched n b -> batched n y.
Proof.
  unfold add. intros H (ca & la & Ha) (cb & lb & Hb). rewrite Ha, Hb in H.
  cbn -[Z.eqb] in H. rewrite Z.eqb_refl in H.
  destruct (ca =? cb); [|destruct (ca =? 1); [|destruct (cb =? 1); [|discriminate]]];
    (destruct (la =? lb);
     [|destruct (la =? 1); [|destruct (lb =? 1); [|discriminate]]]);
    injection H as <-; unfold batched; cbn [shape rev app]; eauto.
Qed.

Lemma block_forward_batched (channels bottlenecks kernels : list Z)
    (flags : list flag) (i : Z) (blk : InceptionBlock.t) (x y : Tensor) (n : Z) :
  block_of_config channels bottlenecks kernels flags i blk ->
  InceptionBlock.forward blk x = Ok y -> batched n x -> batched n y.
Proof.
  intros (ci & co & res & b & k & r & r' & _ & _ & _ & _ & _ & Hinit) H Hx.
  destruct (block_init_structure _ _ _ _ _ _ _ _ _ Hinit)
    as (_ & Hub & Hbn & (c1 & c2 & c3 & Hcl & _) & _ & Hu & Hr).
  rewrite forward_unfold, Hu in H.
  assert (Hmain : forall m, main_path blk x = Ok m -> batched n m).
  { unfold main_path. rewrite Hub, Hcl. unfold Sequential.forward.
    cbn [Sequential.forward_with Sequential.call]. intros m Hm.
    assert (Hx0 : exists x0,
               batched n x0 /\
               (x1 <- Conv1dSamePadding.forward c1 x0 ;;
                x2 <- Conv1dSamePadding.forward c2 x1 ;;
                x3 <- Conv1dSamePadding.forward c3 x2 ;; Ok x3) = Ok m).
    { destruct (b >? 0).
      - destruct Hbn as (bt & Hbt & _). rewrite Hbt in Hm.
        destruct (Conv1dSamePadding.forward bt x) as [x0|] eqn:E0; [|discriminate].
        exists x0. split; [exact (conv_forward_batched _ _ _ _ E0 Hx)|exact Hm].
      - exists x. split; [exact Hx|exact Hm]. }
    destruct Hx0 as (x0 & Hb0 & Hm0).
    destruct (Conv1dSamePadding.forward c1 x0) as [x1|] eqn:E1; [|discriminate].
    cbn [Py.bind] in Hm0.
    destruct (Conv1dSamePadding.forward c2 x1) as [x2|] eqn:E2; [|discriminate].
    cbn [Py.bind] in Hm0.
    destruct (Conv1dSamePadding.forward c3 x2) as [x3|] eqn:E3; [|discriminate].
    cbn [Py.bind] in Hm0. injection Hm0 as <-.
    eauto using conv_forward_batched. }
  destruct (truthy res).
  - destruct (main_path blk x) as [m|] eqn:Em; [|discriminate].
    cbn [Py.bind] in H.
    destruct Hr as (c & bn & a & Hr & _). unfold residual_path in H.
    rewrite Hr in H. unfold Sequential.forward in H.
    cbn [Sequential.forward_with Sequential.call] in H.
    destruct (Conv1dSamePadding.forward c x) as [y0|] eqn:E0; [|discriminate].
    cbn [Py.bind] in H.
    pose proof (conv_forward_batched _ _ _ _ E0 Hx) as (cy & ly & Hy0).
    unfold BatchNorm1d.forward, BatchNorm1d.normalise in H. rewrite Hy0 in H.
    destruct (_ && _); [discriminate|].
    destruct (_ =? _); [|discriminate]. cbn [Py.bind] in H.
    unfold ReLU.forward in H. cbn [Py.bind shape value] in H.
    apply (add_batched _ _ _ n H); [now apply Hmain|].
    exists cy, ly. reflexivity.
  - now apply Hmain.
Qed.

Lemma blocks_forward_batched (channels bottlenecks kernels : list Z)
    (flags : list flag) (l : list Z) (blocks : list InceptionBlock.t) (n : Z) :
  Forall2 (block_of_config channels bottlenecks kernels flags) l blocks ->
  forall x y,
    Sequential.forward_with InceptionBlock.forward blocks x = Ok y ->
    batched n x -> batched n y.
Proof.
  induction 1 as [|i blk l blocks Hblk _ IH]; intros x y H Hx.
  - cbn in H. now injection H as <-.
  - cbn [Sequential.forward_with] in H.
    destruct (InceptionBlock.forward blk x) as [x1|] eqn:E1; [|discriminate].
    cbn [Py.bind] in H.
    eapply IH; [exact H|]. eapply block_forward_batched; eauto.
Qed.

(** X9. Whenever [forward] of a constructed stack returns on a batched
    input [[n; c; l]], the result has shape [[n; num_pred_classes]]: the
    lengths produced inside the blocks never reach the output shape. *)
Theorem stack_output_shape_when_it_returns :
  forall (num_blocks in_channels : Z)
         (out_channels bottleneck_channels kernel_sizes : hyper Z)
         (use_residuals : hyper flag) (num_pred_classes : Z)
         (built built' : registry) (m : InceptionModel.t)
         (x out : Tensor) (n c l : Z),
    InceptionModel.__init__ num_blocks in_channels out_channels
      bottleneck_channels kernel_sizes use_residuals num_pred_classes built
    = (Ok m, built') ->
    shape x = [n; c; l] ->
    InceptionModel.forward m x = Ok out ->
    shape out = [n; num_pred_classes].
Proof.
  intros nb ic oc bc ks ur npc built built' m x out n c l Hinit Hx Hf.
  destruct (model_init_inv _ _ _ _ _ _ _ _ _ _ Hinit)
    as (channels & bottlenecks & kernels & flags & _ & HF & _ & Hout).
  destruct (logits_are_linear_of_pooled m x out Hf) as (y & Hy & _ & Hs).
  destruct (blocks_forward_batched _ _ _ _ _ _ n HF x y Hy) as (cy & ly & Sy).
  { now exists c, l. }
  rewrite (Hs n cy ly Sy). now rewrite Hout.
Qed.

Lemma stack_output_shape_when_it_returns_witness :
  shape example_logits = [5; 3].
Proof.
  apply (stack_output_shape_when_it_returns 3 2 (Scalar 8) (Scalar 4) (Scalar 9)
           (Scalar (PyBool false)) 3 []
           (snd (build (InceptionModel.__init__ 3 2 (Scalar 8) (Scalar 4)
                          (Scalar 9) (Scalar (PyBool false)) 3)))
           example_stack (input_of [5; 2; 50]) example_logits 5 2 50);
    reflexivity.
Defined.




Lemma range_nonpos (n : Z) : n <= 0 -> range n = [].
Proof.
  intros H. unfold range. now replace (Z.to_nat n) with 0%nat by lia.
Qed.




(** X12. A negative [num_blocks] with [use_residuals = 'default'] and
    scalar hyperparameters raises the length assertion although no list
    was supplied: the default policy yields an empty list, whose length 0
    is compared with [num_blocks].  Nothing is built. *)
Theorem negative_num_blocks_default_residuals_asserts :
  forall (num_blocks in_channels out_channels bottleneck_channels kernel_size
          num_pred_classes : Z) (built : registry),
    num_blocks < 0 ->
    InceptionModel.__init__ num_blocks in_channels (Scalar out_channels)
      (Scalar bottleneck_channels) (Scalar kernel_size)
      (Scalar (PyStr "default")) num_pred_classes built
    = (Raise (AssertionError num_blocks 0), built).
Proof.
  intros nb ic oc bc k npc built Hnb.
  unfold InceptionModel.__init__, InceptionModel.expand_all.
  cbn [InceptionModel._expand_to_blocks Py.bind InceptionModel.is_default eq_str].
  replace ("default" =? "default")%string with true by reflexivity.
  rewrite range_nonpos by lia. cbn [map].
  assert (E : InceptionModel._expand_to_blocks (@PerBlock flag []) nb
              = Raise (AssertionError nb 0)).
  { destruct nb; try lia. reflexivity. }
  rewrite E. reflexivity.
Qed.

Lemma negative_num_blocks_default_residuals_asserts_witness :
  InceptionModel.__init__ (-1) 2 (Scalar 8) (Scalar 4) (Scalar 9)
    (Scalar (PyStr "default")) 3 []
  = (Raise (AssertionError (-1) 0), []).
Proof.
  apply (negative_num_blocks_default_residuals_asserts (-1) 2 8 4 9 3 []). lia.
Defined.

Lemma default_flags_resolved (num_blocks in_channels : Z)
    (out_channels bottleneck_channels kernel_sizes : hyper Z)
    (channels bottlenecks kernels : list Z) (flags : list flag) :
  InceptionModel.expand_all num_blocks in_channels out_channels
    bottleneck_channels kernel_sizes (Scalar (PyStr "default"))
  = Ok (channels, bottlenecks, kernels, flags) ->
  0 <= num_blocks /\
  flags = map (fun i => if i mod 3 =? 2 then PyBool true else PyBool false)
              (range num_blocks).
Proof.
  unfold InceptionModel.expand_all.
  destruct (InceptionModel._expand_to_blocks out_channels _); [|discriminate].
  destruct (InceptionModel._expand_to_blocks bottleneck_channels _); [|discriminate].
  destruct (InceptionModel._expand_to_blocks kernel_sizes _); [|discriminate].
  cbn [Py.bind InceptionModel.is_default eq_str].
  replace ("default" =? "default")%string with true by reflexivity.
  cbn [InceptionModel._expand_to_blocks].
  match goal with
  | |- context [len ?l =? num_blocks] =>
      destruct (Z.eqb_spec (len l) num_blocks) as [E|E]; [|discriminate]
  end.
  intros H. injection H as _ _ _ <-. split; [|reflexivity].
  rewrite <- E. unfold len. lia.
Qed.

Lemma count_every_third (k : nat) :
  Z.of_nat (List.length
              (filter truthy
                 (map (fun i => if i mod 3 =? 2 then PyBool true else PyBool false)
                      (map Z.of_nat (seq 0 k)))))
  = Z.of_nat k / 3.
Proof.
  induction k as [|k IH]; [reflexivity|].
  rewrite seq_S, !map_app, filter_app, length_app, Nat2Z.inj_add, IH.
  cbn [map Nat.add].
  pose proof (Z.div_mod (Z.of_nat k) 3 ltac:(lia)) as E.
  pose proof (Z.mod_pos_bound (Z.of_nat k) 3 ltac:(lia)) as B.
  destruct (Z.eqb_spec (Z.of_nat k mod 3) 2) as [H2|H2]; cbn [filter truthy List.length].
  - apply (Z.div_unique _ 3 _ 0); lia.
  - apply (Z.div_unique _ 3 _ (Z.of_nat k mod 3 + 1)); lia.
Qed.

(** X13. Under the default policy the number of residual blocks is
    [num_blocks // 3]; in particular a stack of fewer than three blocks has
    none. *)
Theorem default_policy_counts_every_third :
  forall (num_blocks in_channels : Z)
         (out_channels bottleneck_channels kernel_sizes : hyper Z)
         (channels bottlenecks kernels : list Z) (flags : list flag),
    InceptionModel.expand_all num_blocks in_channels out_channels
      bottleneck_channels kernel_sizes (Scalar (PyStr "default"))
    = Ok (channels, bottlenecks, kernels, flags) ->
    len (filter truthy flags) = num_blocks / 3 /\
    (num_blocks < 3 -> Forall (fun f => truthy f = false) flags).
Proof.
  intros n ic oc bc ks channels bottlenecks kernels flags H.
  destruct (default_flags_resolved _ _ _ _ _ _ _ _ _ H) as [Hn ->].
  assert (Hcount : len (filter truthy
                          (map (fun i => if i mod 3 =? 2 then PyBool true
                                         else PyBool false) (range n)))
                   = n / 3).
  { unfold len, range. rewrite count_every_third. now rewrite Z2Nat.id. }
  split; [exact Hcount|].
  intros Hlt. apply Forall_forall. intros f Hf.
  apply in_map_iff in Hf. destruct Hf as (i & <- & Hi). apply in_range in Hi.
  destruct (Z.eqb_spec (i mod 3) 2) as [E|E]; [|reflexivity].
  rewrite Z.mod_small in E by lia. lia.
Qed.

Lemma default_policy_counts_every_third_witness :
  len (filter truthy [PyBool false; PyBool false; PyBool true; PyBool false;
                      PyBool false; PyBool true; PyBool false]) = 7 / 3 /\
  (7 < 3 ->
   Forall (fun f => truthy f = false)
          [PyBool false; PyBool false; PyBool true; PyBool false;
           PyBool false; PyBool true; PyBool false]).
Proof.
  apply (default_policy_counts_every_third 7 2 (Scalar 8) (Scalar 4) (Scalar 9)
           [2; 8; 8; 8; 8; 8; 8; 8] [4; 4; 4; 4; 4; 4; 4] [9; 9; 9; 9; 9; 9; 9]).
  reflexivity.
Defined.

(** X14. Expansion is idempotent for [num_blocks >= 0]: a list returned by
    [_expand_to_blocks] is accepted unchanged when expanded again, which is
    how [__init__] passes the resolved default residual flags through it. *)
Theorem expand_is_idempotent :
  forall (A : Type) (value : hyper A) (num_blocks : Z) (l : list A),
    0 <= num_blocks ->
    InceptionModel._expand_to_blocks value num_blocks = Ok l ->
    InceptionModel._expand_to_blocks (PerBlock l) num_blocks = Ok l.
Proof.
  intros A value n l Hn H. cbn [InceptionModel._expand_to_blocks].
  now rewrite (expand_len value n l Hn H), Z.eqb_refl.
Qed.

Lemma expand_is_idempotent_witness :
  InceptionModel._expand_to_blocks (PerBlock [9; 9; 9]) 3 = Ok [9; 9; 9].
Proof.
  apply (expand_is_idempotent Z (Scalar 9) 3 [9; 9; 9]); [lia | reflexivity].
Defined.

(** X15. A block built without a bottleneck ([bottleneck_channels = 0],
    stride 1) rejects every batched input that has channels: its first
    convolution is sized for 0 input channels.  (A block built with
    [out_channels < 1] is rejected one check earlier, for a weight without
    output channels.) *)
Theorem bottleneck_free_block_rejects_inputs :
  forall (in_channels out_channels : Z) (residual : flag) (kernel_size : Z)
         (built built' : registry) (blk : InceptionBlock.t) (x : Tensor)
         (n c l : Z),
    InceptionBlock.__init__ in_channels out_channels residual 1 0 kernel_size built
    = (Ok blk, built') ->
    shape x = [n; c; l] -> c <> 0 ->
    InceptionBlock.forward blk x
    = Raise (RuntimeError
               (if out_channels <? 1
                then "expected weight to be at least groups at dimension 0"
                else "input channels do not match the weight")).
Proof.
  exact disabled_bottleneck_rejects_input.
Qed.

Lemma bottleneck_free_block_rejects_inputs_witness :
  InceptionBlock.forward bottleneck_free_block (input_of [5; 2; 50])
  = Raise (RuntimeError "input channels do not match the weight").
Proof.
  apply (bottleneck_free_block_rejects_inputs 2 8 (PyBool false) 9 []
           (snd (build (InceptionBlock.__init__ 2 8 (PyBool false) 1 0 9)))
           bottleneck_free_block (input_of [5; 2; 50]) 5 2 50);
    [reflexivity | reflexivity | lia].
Defined.

(** X16. The main path of every constructed block consists of convolutions
    only: its output applies batch normalisation or the rectifier exactly
    when its input already did, so on a raw input it applies neither. *)
Theorem constructed_main_path_is_convolutions_only :
  forall (in_channels out_channels : Z) (residual : flag)
         (stride bottleneck_channels kernel_size : Z) (built built' : registry)
         (blk : InceptionBlock.t) (x out : Tensor),
    InceptionBlock.__init__ in_channels out_channels residual stride
      bottleneck_channels kernel_size built = (Ok blk, built') ->
    main_path blk x = Ok out ->
    applies_norm_or_relu (value out) = applies_norm_or_relu (value x).
Proof.
  exact main_path_applies_no_norm.
Qed.

Lemma constructed_main_path_is_convolutions_only_witness :
  applies_norm_or_relu (value residual_block_main_output)
  = applies_norm_or_relu (value (input_of [5; 2; 50])).
Proof.
  apply (constructed_main_path_is_convolutions_only 2 3 (PyBool true) 1 1 4 []
           (snd (build (InceptionBlock.__init__ 2 3 (PyBool true) 1 1 4)))
           residual_block (input_of [5; 2; 50]) residual_block_main_output);
    reflexivity.
Defined.

(** X17. At unit stride and dilation, on a batched input with [c >= 1]
    channels, the output keeps the input length exactly when the kernel
    size equals the channel count; otherwise the length changes by
    [c - k].  The one input rejected is an empty sequence of a non-empty
    batch that reaches the convolution unpadded ([c - 1] even). *)
Theorem unit_stride_keeps_length_iff_kernel_is_channel_count :
  forall (input weight : Tensor) (n c l o k : Z),
    shape input = [n; c; l] ->
    shape weight = [o; c; k] ->
    1 <= c -> 1 <= o -> 0 <= l -> 1 <= k <= l + c - 1 ->
    if empty_unpadded n c l
    then conv1d_same_padding input weight None 1 1 1
         = Raise (RuntimeError "Only zero batch or zero channel inputs are supported")
    else exists out l',
      conv1d_same_padding input weight None 1 1 1 = Ok out /\
      shape out = [n; o; l'] /\
      l' - l = c - k /\
      (l' = l <-> k = c).
Proof.
  intros input weight n c l o k Hi Hw Hc Ho Hl Hk.
  destruct (empty_unpadded n c l) eqn:He.
  - now apply (unit_stride_empty_raises input weight n c l o k).
  - destruct (unit_stride_output_length_gen input weight n c l o k Hi Hw Hc Ho Hl
                Hk He) as (out & E & S).
    exists out, (l + c - k). repeat split; try assumption; lia.
Qed.

Lemma unit_stride_keeps_length_iff_kernel_is_channel_count_witness :
  exists out l',
    conv1d_same_padding (input_of [5; 4; 50])
      (mkTensor [8; 4; 9] (Param 1 "weight")) None 1 1 1 = Ok out /\
    shape out = [5; 8; l'] /\
    l' - 50 = 4 - 9 /\
    (l' = 50 <-> 9 = 4).
Proof.
  apply (unit_stride_keeps_length_iff_kernel_is_channel_count
           (input_of [5; 4; 50]) (mkTensor [8; 4; 9] (Param 1 "weight"))
           5 4 50 8 9); try reflexivity; lia.
Defined.
